(** * Adafruit_INA219: a shallow embedding of the driver and its calibration engine

    The development follows [Adafruit_INA219.cpp].  The driver is written for
    the Arduino AVR core, which fixes the machine model used here:
    - [uint8_t], [uint16_t] and [int16_t] are integers in [Z] with the
      wrap-around written out; [int] and [unsigned int] are 16 bits wide;
    - [float] and [double] are the same IEEE-754 binary32 format; they are
      modelled with the Standard Library's executable specification of
      floating-point arithmetic, instantiated at 24 bits of precision, and
      every operation rounds to nearest even;
    - the I2C bus ([Wire]) and the sensor behind it are an explicit part of
      the state, so that every register access of the driver is observable;
    - member functions are state transformers over the handle and the bus.

    The header [Adafruit_INA219.h] is not part of the sources.  The bit
    patterns of its CONFIG macros are therefore parameters (class
    [INA219_header]); the register addresses follow the register map.  The
    build is the one without [INA219_DEBUG], which only adds printing. *)

From Stdlib Require Import ZArith Lia QArith Qabs Qpower.
From Stdlib Require Import Floats.SpecFloat.
From stdpp Require Import gmap list.

Local Open Scope Z_scope.

(** ** Machine integers *)

Module Int.

Definition to_uint8 (z : Z) : Z := z mod 2 ^ 8.
Definition to_uint16 (z : Z) : Z := z mod 2 ^ 16.

(** Conversion to [int16_t]: the value is reduced into [-32768, 32767]. *)
Definition to_int16 (z : Z) : Z := (z + 2 ^ 15) mod 2 ^ 16 - 2 ^ 15.

End Int.

(** ** Floating point: IEEE-754 binary32 *)

Module F32.

Definition prec : Z := 24.
Definition emax : Z := 128.

Definition float : Type := spec_float.

Definition zero : float := S754_zero false.

Definition mul : float -> float -> float := SFmul prec emax.
Definition div : float -> float -> float := SFdiv prec emax.

Definition leb : float -> float -> bool := SFleb.
Definition ltb : float -> float -> bool := SFltb.

(** Conversion of an integer to [float], rounding to nearest even. *)
Definition of_int (z : Z) : float := binary_normalize prec emax z 0 false.

(** The decimal literal [n / d], for [n] and [d] that are themselves floats:
    the division is correctly rounded, so this is the float the compiler
    produces for the literal. *)
Definition lit (n d : Z) : float := div (of_int n) (of_int d).

(** [pow(10, k)] for an unsigned [k], as the nearest float to [10 ^ k]. *)
Definition pow10 (k : Z) : float := of_int (10 ^ k).

(** The integral part of a float (the fraction is discarded); infinities and
    NaN have none. *)
Definition trunc (f : float) : option Z :=
  match f with
  | S754_zero _ => Some 0
  | S754_finite s m e => Some (cond_Zopp s (Z.shiftl (Z.pos m) e))
  | S754_infinity _ | S754_nan => None
  end.

(** The exact value of a finite float as a rational. *)
Definition to_Q (f : float) : Q :=
  match f with
  | S754_finite s m e => (inject_Z (cond_Zopp s (Z.pos m)) * Qpower 2 e)%Q
  | _ => 0%Q
  end.

End F32.

Abbreviation float := F32.float.

(** What the conversion [(uint16_t) f] yields when the integral part of [f]
    does not fit the type (or [f] has none).  C leaves that case undefined;
    the result is whatever the target's conversion routine returns, reduced
    to 16 bits. *)
Class Target := { fixuns_out_of_range : float -> Z }.

Definition float_to_uint16 `{Target} (f : float) : Z :=
  match F32.trunc f with
  | Some z => if (0 <=? z) && (z <=? 65535) then z
              else Int.to_uint16 (fixuns_out_of_range f)
  | None => Int.to_uint16 (fixuns_out_of_range f)
  end.

(** ** The header's constants *)

(** Modelled from the spec: the register addresses of [Adafruit_INA219.h],
    which is not among the sources, as the register map gives them. *)
Definition INA219_REG_CONFIG : Z := 0x00.
Definition INA219_REG_SHUNTVOLTAGE : Z := 0x01.
Definition INA219_REG_BUSVOLTAGE : Z := 0x02.
Definition INA219_REG_POWER : Z := 0x03.
Definition INA219_REG_CURRENT : Z := 0x04.
Definition INA219_REG_CALIBRATION : Z := 0x05.

(** The CONFIG bit patterns the driver uses.  Their values are not in the
    sources; every definition below takes them as they come. *)
Class INA219_header := {
  INA219_CONFIG_BVOLTAGERANGE_16V : Z;
  INA219_CONFIG_BVOLTAGERANGE_32V : Z;
  INA219_CONFIG_GAIN_1_40MV : Z;
  INA219_CONFIG_GAIN_2_80MV : Z;
  INA219_CONFIG_GAIN_4_160MV : Z;
  INA219_CONFIG_GAIN_8_320MV : Z;
  INA219_CONFIG_BADCRES_MASK : Z;
  INA219_CONFIG_BADCRES_12BIT : Z;
  INA219_CONFIG_BADCRES_12BIT_128S_69MS : Z;
  INA219_CONFIG_SADCRES_MASK : Z;
  INA219_CONFIG_SADCRES_12BIT_1S_532US : Z;
  INA219_CONFIG_SADCRES_12BIT_128S_69MS : Z;
  INA219_CONFIG_MODE_SANDBVOLT_CONTINUOUS : Z
}.

(** The requirements a header has to meet for the sampling-mode toggles to be
    field updates: each field value lies inside its field's mask, and the two
    ADC fields do not overlap. *)
Record header_fields_ok `{INA219_header} : Prop := {
  sadc_1s_in_mask :
    Z.land INA219_CONFIG_SADCRES_12BIT_1S_532US (Z.lnot INA219_CONFIG_SADCRES_MASK) = 0;
  sadc_128s_in_mask :
    Z.land INA219_CONFIG_SADCRES_12BIT_128S_69MS (Z.lnot INA219_CONFIG_SADCRES_MASK) = 0;
  badc_1s_in_mask :
    Z.land INA219_CONFIG_BADCRES_12BIT (Z.lnot INA219_CONFIG_BADCRES_MASK) = 0;
  badc_128s_in_mask :
    Z.land INA219_CONFIG_BADCRES_12BIT_128S_69MS (Z.lnot INA219_CONFIG_BADCRES_MASK) = 0;
  adc_masks_disjoint :
    Z.land INA219_CONFIG_SADCRES_MASK INA219_CONFIG_BADCRES_MASK = 0
}.

(** A header laid out as the INA219 data sheet lays out CONFIG: bus range in
    bit 13, gain in bits 12-11, bus ADC in bits 10-7, shunt ADC in bits 6-3,
    mode in bits 2-0. *)
Definition datasheet_header : INA219_header := {|
  INA219_CONFIG_BVOLTAGERANGE_16V := 0x0000;
  INA219_CONFIG_BVOLTAGERANGE_32V := 0x2000;
  INA219_CONFIG_GAIN_1_40MV := 0x0000;
  INA219_CONFIG_GAIN_2_80MV := 0x0800;
  INA219_CONFIG_GAIN_4_160MV := 0x1000;
  INA219_CONFIG_GAIN_8_320MV := 0x1800;
  INA219_CONFIG_BADCRES_MASK := 0x0780;
  INA219_CONFIG_BADCRES_12BIT := 0x0400;
  INA219_CONFIG_BADCRES_12BIT_128S_69MS := 0x0780;
  INA219_CONFIG_SADCRES_MASK := 0x0078;
  INA219_CONFIG_SADCRES_12BIT_1S_532US := 0x0018;
  INA219_CONFIG_SADCRES_12BIT_128S_69MS := 0x0078;
  INA219_CONFIG_MODE_SANDBVOLT_CONTINUOUS := 0x0007
|}.

(** A target whose conversion routine answers 0 outside the range. *)
Definition zero_target : Target := {| fixuns_out_of_range := fun _ => 0 |}.

(** ** The bus and the sensor *)

(** The sensor at the other end of the bus, as the register map describes it:
    a file of 16-bit registers selected by a register pointer.  A
    transmission of one byte sets the pointer; a transmission of three bytes
    also stores the last two, high byte first, in the register pointed at. *)
Record INA219_device := {
  reg_ptr : Z;
  regs : gmap Z Z
}.

Definition reg_value (d : INA219_device) (r : Z) : Z := default 0 (regs d !! r).

Definition device_receive (bytes : list Z) (d : INA219_device) : INA219_device :=
  match bytes with
  | [] => d
  | r :: hi :: lo :: _ =>
      {| reg_ptr := r; regs := <[r := Z.lor (Z.shiftl hi 8) lo]> (regs d) |}
  | r :: _ => {| reg_ptr := r; regs := regs d |}
  end.

(** The bytes the sensor answers to a read request: the register pointed at,
    high byte first. *)
Definition device_send (n : nat) (d : INA219_device) : list Z :=
  let v := reg_value d (reg_ptr d) in
  take n [Z.land (Z.shiftr v 8) 0xFF; Z.land v 0xFF].

(** What happens on the bus: a transmission to an address, a request for
    bytes from an address, a pause. *)
Inductive bus_event :=
  | Transmit (addr : Z) (bytes : list Z)
  | Request (addr : Z) (count : Z)
  | Delay (ms : Z).

(** The transport the driver consumes, Arduino's [Wire] object: its transmit
    and receive buffers, the sensor it is wired to, and the log of what has
    happened on the bus ([delay] writes to the same log). *)
Record TwoWire := {
  tx_addr : Z;
  tx_buf : list Z;
  rx_buf : list Z;
  device : INA219_device;
  events : list bus_event
}.

(** ** The driver's state *)

Record Adafruit_INA219 := {
  ina219_i2caddr : Z;
  ina219_currentLsb_mA : float;
  ina219_powerLsb_mW : float;
  ina219_calValue : Z
}.

Record State := {
  this : Adafruit_INA219;
  Wire : TwoWire
}.

(** A member function is a state transformer with a result. *)
Definition Drv (A : Type) : Type := State -> A * State.

Definition ret {A} (a : A) : Drv A := fun st => (a, st).

Definition bind {A B} (c : Drv A) (k : A -> Drv B) : Drv B :=
  fun st => let (a, st') := c st in k a st'.

Declare Scope drv_scope.
Delimit Scope drv_scope with drv.
Notation "'do' x <- c ;; k" := (bind c (fun x => k))
  (at level 10, x name, c at level 99, k at level 200) : drv_scope.
Notation "c ;; k" := (bind c (fun _ => k))
  (at level 100, k at level 200) : drv_scope.
Local Open Scope drv_scope.

Definition exec {A} (c : Drv A) (st : State) : State := snd (c st).
Definition eval {A} (c : Drv A) (st : State) : A := fst (c st).

Definition get_this : Drv Adafruit_INA219 := fun st => (this st, st).

Definition modify_this (f : Adafruit_INA219 -> Adafruit_INA219) : Drv unit :=
  fun st => (tt, {| this := f (this st); Wire := Wire st |}).

Definition modify_Wire (f : TwoWire -> TwoWire) : Drv unit :=
  fun st => (tt, {| this := this st; Wire := f (Wire st) |}).

Definition set_i2caddr (a : Z) (h : Adafruit_INA219) : Adafruit_INA219 :=
  {| ina219_i2caddr := a;
     ina219_currentLsb_mA := ina219_currentLsb_mA h;
     ina219_powerLsb_mW := ina219_powerLsb_mW h;
     ina219_calValue := ina219_calValue h |}.

Definition set_currentLsb_mA (x : float) (h : Adafruit_INA219) : Adafruit_INA219 :=
  {| ina219_i2caddr := ina219_i2caddr h;
     ina219_currentLsb_mA := x;
     ina219_powerLsb_mW := ina219_powerLsb_mW h;
     ina219_calValue := ina219_calValue h |}.

Definition set_powerLsb_mW (x : float) (h : Adafruit_INA219) : Adafruit_INA219 :=
  {| ina219_i2caddr := ina219_i2caddr h;
     ina219_currentLsb_mA := ina219_currentLsb_mA h;
     ina219_powerLsb_mW := x;
     ina219_calValue := ina219_calValue h |}.

Definition set_calValue (v : Z) (h : Adafruit_INA219) : Adafruit_INA219 :=
  {| ina219_i2caddr := ina219_i2caddr h;
     ina219_currentLsb_mA := ina219_currentLsb_mA h;
     ina219_powerLsb_mW := ina219_powerLsb_mW h;
     ina219_calValue := v |}.

(** ** The transport primitives *)

Definition Wire_beginTransmission (addr : Z) : Drv unit :=
  modify_Wire (fun w =>
    {| tx_addr := Int.to_uint8 addr; tx_buf := []; rx_buf := rx_buf w;
       device := device w; events := events w |}).

Definition Wire_write (b : Z) : Drv unit :=
  modify_Wire (fun w =>
    {| tx_addr := tx_addr w; tx_buf := tx_buf w ++ [Int.to_uint8 b]; rx_buf := rx_buf w;
       device := device w; events := events w |}).

Definition Wire_endTransmission : Drv unit :=
  modify_Wire (fun w =>
    {| tx_addr := tx_addr w; tx_buf := []; rx_buf := rx_buf w;
       device := device_receive (tx_buf w) (device w);
       events := events w ++ [Transmit (tx_addr w) (tx_buf w)] |}).

Definition Wire_requestFrom (addr : Z) (count : Z) : Drv unit :=
  modify_Wire (fun w =>
    {| tx_addr := tx_addr w; tx_buf := tx_buf w;
       rx_buf := device_send (Z.to_nat count) (device w);
       device := device w;
       events := events w ++ [Request (Int.to_uint8 addr) count] |}).

(** [Wire.begin()] joins the bus as its master; nothing crosses the bus. *)
Definition Wire_begin : Drv unit := ret tt.

(** [Wire.read()] hands out the next received byte, or -1 when there is none. *)
Definition Wire_read : Drv Z :=
  fun st =>
    let w := Wire st in
    match rx_buf w with
    | [] => (-1, st)
    | b :: rest =>
        (b, {| this := this st;
               Wire := {| tx_addr := tx_addr w; tx_buf := tx_buf w; rx_buf := rest;
                          device := device w; events := events w |} |})
    end.

Definition delay (ms : Z) : Drv unit :=
  modify_Wire (fun w =>
    {| tx_addr := tx_addr w; tx_buf := tx_buf w; rx_buf := rx_buf w;
       device := device w; events := events w ++ [Delay ms] |}).

(** ** Register access *)

(** One transmission: the register address, then the value's upper and lower
    byte. *)
Definition wireWriteRegister (reg : Z) (value : Z) : Drv unit :=
  let reg := Int.to_uint8 reg in
  let value := Int.to_uint16 value in
  do h <- get_this ;;
  Wire_beginTransmission (ina219_i2caddr h) ;;
  Wire_write reg ;;
  Wire_write (Z.land (Z.shiftr value 8) 0xFF) ;;
  Wire_write (Z.land value 0xFF) ;;
  Wire_endTransmission.

(** The register address is transmitted, and after a millisecond two bytes
    are requested and joined, the first one read being the upper byte (the
    two calls of [Wire.read()] are taken in the order they are written). *)
Definition wireReadRegister (reg : Z) : Drv Z :=
  let reg := Int.to_uint8 reg in
  do h <- get_this ;;
  Wire_beginTransmission (ina219_i2caddr h) ;;
  Wire_write reg ;;
  Wire_endTransmission ;;
  delay 1 ;;
  Wire_requestFrom (ina219_i2caddr h) 2 ;;
  do hi <- Wire_read ;;
  do lo <- Wire_read ;;
  ret (Int.to_uint16 (Z.lor (Z.shiftl hi 8) lo)).

(** ** Calibration presets *)

Section Driver.

Context `{hdr : INA219_header} `{tgt : Target}.

Definition setCalibration_32V_2A : Drv unit :=
  modify_this (set_currentLsb_mA (F32.lit 1 10)) ;;
  modify_this (set_calValue 4096) ;;
  modify_this (set_powerLsb_mW (F32.of_int 2)) ;;
  do h <- get_this ;;
  wireWriteRegister INA219_REG_CALIBRATION (ina219_calValue h) ;;
  let config :=
    Int.to_uint16
      (Z.lor (Z.lor (Z.lor (Z.lor INA219_CONFIG_BVOLTAGERANGE_32V
                                  INA219_CONFIG_GAIN_8_320MV)
                           INA219_CONFIG_BADCRES_12BIT)
                    INA219_CONFIG_SADCRES_12BIT_1S_532US)
             INA219_CONFIG_MODE_SANDBVOLT_CONTINUOUS) in
  wireWriteRegister INA219_REG_CONFIG config.

Definition setCalibration_32V_1A : Drv unit :=
  modify_this (set_currentLsb_mA (F32.lit 4 100)) ;;
  modify_this (set_calValue 10240) ;;
  modify_this (set_powerLsb_mW (F32.lit 8 10)) ;;
  do h <- get_this ;;
  wireWriteRegister INA219_REG_CALIBRATION (ina219_calValue h) ;;
  let config :=
    Int.to_uint16
      (Z.lor (Z.lor (Z.lor (Z.lor INA219_CONFIG_BVOLTAGERANGE_32V
                                  INA219_CONFIG_GAIN_8_320MV)
                           INA219_CONFIG_BADCRES_12BIT)
                    INA219_CONFIG_SADCRES_12BIT_1S_532US)
             INA219_CONFIG_MODE_SANDBVOLT_CONTINUOUS) in
  wireWriteRegister INA219_REG_CONFIG config.

Definition setCalibration_16V_400mA : Drv unit :=
  modify_this (set_currentLsb_mA (F32.lit 5 100)) ;;
  modify_this (set_calValue 8192) ;;
  modify_this (set_powerLsb_mW (F32.of_int 1)) ;;
  do h <- get_this ;;
  wireWriteRegister INA219_REG_CALIBRATION (ina219_calValue h) ;;
  let config :=
    Int.to_uint16
      (Z.lor (Z.lor (Z.lor (Z.lor INA219_CONFIG_BVOLTAGERANGE_16V
                                  INA219_CONFIG_GAIN_1_40MV)
                           INA219_CONFIG_BADCRES_12BIT)
                    INA219_CONFIG_SADCRES_12BIT_1S_532US)
             INA219_CONFIG_MODE_SANDBVOLT_CONTINUOUS) in
  wireWriteRegister INA219_REG_CONFIG config.

(** ** The generic calibration *)

(** The rounding loop of [setCalibration_Def]: while [current_lsb] is
    positive, scale it by ten until its integral part is nonzero, then replace
    it by that part plus one, scaled back.  The loop is a [while]; [fuel]
    bounds the iterations the model follows, and [None] says the bound was
    reached with the loop still running. *)
Fixpoint round_lsb (fuel : nat) (current_lsb : float) (digits : Z) : option float :=
  match fuel with
  | O => None
  | S fuel' =>
      if F32.ltb F32.zero current_lsb then
        if negb (float_to_uint16 current_lsb / 1 =? 0) then
          let current_lsb := F32.of_int (Int.to_uint16 (float_to_uint16 current_lsb + 1)) in
          Some (F32.div current_lsb (F32.pow10 digits))
        else
          round_lsb fuel' (F32.mul current_lsb (F32.of_int 10)) (Int.to_uint16 (digits + 1))
      else Some current_lsb
  end.

(** The programmable-gain ranges, named after the header's [GAIN] macros. *)
Inductive pga_range := GAIN_1_40MV | GAIN_2_80MV | GAIN_4_160MV | GAIN_8_320MV.

Definition gain_bits (g : pga_range) : Z :=
  match g with
  | GAIN_1_40MV => INA219_CONFIG_GAIN_1_40MV
  | GAIN_2_80MV => INA219_CONFIG_GAIN_2_80MV
  | GAIN_4_160MV => INA219_CONFIG_GAIN_4_160MV
  | GAIN_8_320MV => INA219_CONFIG_GAIN_8_320MV
  end.

(** The gain index and the full-scale shunt range (in mV) of a range. *)
Definition gain_index (g : pga_range) : Z :=
  match g with
  | GAIN_1_40MV => 1
  | GAIN_2_80MV => 2
  | GAIN_4_160MV => 4
  | GAIN_8_320MV => 8
  end.

(** The [if]-chain that picks the gain in [setCalibration_Def]. *)
Definition select_gain (v_shunt_max : float) : pga_range :=
  if F32.leb v_shunt_max (F32.lit 4 100) then GAIN_1_40MV
  else if F32.leb v_shunt_max (F32.lit 8 100) then GAIN_2_80MV
  else if F32.leb v_shunt_max (F32.lit 160 1000) then GAIN_4_160MV
  else GAIN_8_320MV.

(** The part of [setCalibration_Def] after the rounding loop. *)
Definition setCalibration_Def_finish
    (r_shunt v_shunt_max v_bus_max : float) (current_lsb : float) : Drv unit :=
  modify_this (set_currentLsb_mA (F32.mul current_lsb (F32.of_int 1000))) ;;
  let swap := F32.div (F32.lit 4096 100000) (F32.mul current_lsb r_shunt) in
  let cal := float_to_uint16 swap in
  modify_this (set_calValue cal) ;;
  let power_lsb := F32.mul current_lsb (F32.of_int 20) in
  modify_this (set_powerLsb_mW (F32.mul power_lsb (F32.of_int 1000))) ;;
  do h <- get_this ;;
  wireWriteRegister INA219_REG_CALIBRATION (ina219_calValue h) ;;
  let bvoltage :=
    Int.to_uint16 (if F32.ltb (F32.of_int 16) v_bus_max
                   then INA219_CONFIG_BVOLTAGERANGE_32V
                   else INA219_CONFIG_BVOLTAGERANGE_16V) in
  let gain := Int.to_uint16 (gain_bits (select_gain v_shunt_max)) in
  let config :=
    Int.to_uint16
      (Z.lor (Z.lor (Z.lor (Z.lor bvoltage gain)
                           INA219_CONFIG_BADCRES_12BIT)
                    INA219_CONFIG_SADCRES_12BIT_1S_532US)
             INA219_CONFIG_MODE_SANDBVOLT_CONTINUOUS) in
  wireWriteRegister INA219_REG_CONFIG config.

(** [setCalibration_Def], in the build without [INA219_DEBUG].  The result is
    [None] when the rounding loop is still running after [fuel] iterations. *)
Definition setCalibration_Def (fuel : nat)
    (r_shunt v_shunt_max v_bus_max i_max_expected : float) (st : State)
    : option (unit * State) :=
  let i_max_possible := F32.div v_shunt_max r_shunt in
  let min_lsb := F32.div i_max_expected (F32.of_int 32767) in
  let max_lsb := F32.div i_max_expected (F32.of_int 4096) in
  match round_lsb fuel min_lsb 0 with
  | None => None
  | Some current_lsb =>
      Some (setCalibration_Def_finish r_shunt v_shunt_max v_bus_max current_lsb st)
  end.

(** ** Construction and start-up *)

(** The constructor assigns three members of the object; [storage] is the
    memory the object is built in, with whatever it holds. *)
Definition Adafruit_INA219_ctor (storage : Adafruit_INA219) (addr : Z) : Adafruit_INA219 :=
  let h := set_i2caddr (Int.to_uint8 addr) storage in
  let h := set_currentLsb_mA (F32.of_int 0) h in
  set_powerLsb_mW (F32.of_int 0) h.

(** [begin()]: join the bus, then select the 32V/2A preset. *)
Definition begin : Drv unit :=
  Wire_begin ;;
  setCalibration_32V_2A.

(** [begin(addr)]. *)
Definition begin_addr (addr : Z) : Drv unit :=
  modify_this (set_i2caddr (Int.to_uint8 addr)) ;;
  begin.

(** ** Raw readers *)

Definition getBusVoltage_raw : Drv Z :=
  do value <- wireReadRegister INA219_REG_BUSVOLTAGE ;;
  ret (Int.to_int16 (Int.to_uint16 (Z.shiftr value 3 * 4))).

Definition getShuntVoltage_raw : Drv Z :=
  do value <- wireReadRegister INA219_REG_SHUNTVOLTAGE ;;
  ret (Int.to_int16 value).

Definition getCurrent_raw : Drv Z :=
  do h <- get_this ;;
  wireWriteRegister INA219_REG_CALIBRATION (ina219_calValue h) ;;
  do value <- wireReadRegister INA219_REG_CURRENT ;;
  ret (Int.to_int16 value).

Definition getPower_raw : Drv Z :=
  do value <- wireReadRegister INA219_REG_POWER ;;
  ret (Int.to_int16 value).

(** ** Conversions to physical units *)

Definition getShuntVoltage_mV : Drv float :=
  do value <- getShuntVoltage_raw ;;
  ret (F32.mul (F32.of_int value) (F32.lit 1 100)).

Definition getBusVoltage_V : Drv float :=
  do value <- getBusVoltage_raw ;;
  ret (F32.mul (F32.of_int value) (F32.lit 1 1000)).

Definition getCurrent_mA : Drv float :=
  do raw <- getCurrent_raw ;;
  let valueDec := F32.of_int raw in
  do h <- get_this ;;
  ret (F32.mul valueDec (ina219_currentLsb_mA h)).

Definition getPower_mW : Drv float :=
  do raw <- getPower_raw ;;
  let valueDec := F32.of_int raw in
  do h <- get_this ;;
  ret (F32.mul valueDec (ina219_powerLsb_mW h)).

(** ** Sampling-mode toggles *)

Definition setAmpInstant : Drv unit :=
  do value <- wireReadRegister INA219_REG_CONFIG ;;
  let value :=
    Int.to_uint16 (Z.lor (Z.land value (Z.lnot INA219_CONFIG_SADCRES_MASK))
                         INA219_CONFIG_SADCRES_12BIT_1S_532US) in
  wireWriteRegister INA219_REG_CONFIG value.

Definition setAmpAverage : Drv unit :=
  do value <- wireReadRegister INA219_REG_CONFIG ;;
  let value :=
    Int.to_uint16 (Z.lor (Z.land value (Z.lnot INA219_CONFIG_SADCRES_MASK))
                         INA219_CONFIG_SADCRES_12BIT_128S_69MS) in
  wireWriteRegister INA219_REG_CONFIG value ;;
  delay 69.

Definition setVoltInstant : Drv unit :=
  do value <- wireReadRegister INA219_REG_CONFIG ;;
  let value :=
    Int.to_uint16 (Z.lor (Z.land value (Z.lnot INA219_CONFIG_BADCRES_MASK))
                         INA219_CONFIG_BADCRES_12BIT) in
  wireWriteRegister INA219_REG_CONFIG value.

Definition setVoltAverage : Drv unit :=
  do value <- wireReadRegister INA219_REG_CONFIG ;;
  let value :=
    Int.to_uint16 (Z.lor (Z.land value (Z.lnot INA219_CONFIG_BADCRES_MASK))
                         INA219_CONFIG_BADCRES_12BIT_128S_69MS) in
  wireWriteRegister INA219_REG_CONFIG value ;;
  delay 69.

End Driver.

(** * The vocabulary of the properties *)

(** ** Register accesses as seen on the bus *)

(** The bus address the handle of a state talks to. *)
Definition bus_addr (st : State) : Z := Int.to_uint8 (ina219_i2caddr (this st)).

Definition hi_byte (v : Z) : Z := Z.land (Z.shiftr v 8) 0xFF.
Definition lo_byte (v : Z) : Z := Z.land v 0xFF.

(** The state after a register write: one transmission of three bytes, which
    leaves the value in the sensor's register. *)
Definition after_write (reg value : Z) (st : State) : State :=
  {| this := this st;
     Wire := {| tx_addr := bus_addr st; tx_buf := []; rx_buf := rx_buf (Wire st);
                device := {| reg_ptr := Int.to_uint8 reg;
                             regs := <[Int.to_uint8 reg := Int.to_uint16 value]>
                                       (regs (device (Wire st))) |};
                events := events (Wire st) ++
                          [Transmit (bus_addr st)
                             [Int.to_uint8 reg; hi_byte (Int.to_uint16 value);
                              lo_byte (Int.to_uint16 value)]] |} |}.

(** The state after a register read: the pointer is set, the driver waits one
    millisecond and requests two bytes. *)
Definition after_read (reg : Z) (st : State) : State :=
  {| this := this st;
     Wire := {| tx_addr := bus_addr st; tx_buf := []; rx_buf := [];
                device := {| reg_ptr := Int.to_uint8 reg;
                             regs := regs (device (Wire st)) |};
                events := events (Wire st) ++
                          [Transmit (bus_addr st) [Int.to_uint8 reg]; Delay 1;
                           Request (bus_addr st) 2] |} |}.

(** The state after [delay]: time passes, and nothing else happens. *)
Definition after_delay (ms : Z) (st : State) : State :=
  {| this := this st;
     Wire := {| tx_addr := tx_addr (Wire st); tx_buf := tx_buf (Wire st);
                rx_buf := rx_buf (Wire st); device := device (Wire st);
                events := events (Wire st) ++ [Delay ms] |} |}.

(** ** The CONFIG register and its fields *)

(** The CONFIG register of the sensor in a state. *)
Definition config_of (st : State) : Z := reg_value (device (Wire st)) INA219_REG_CONFIG.

(** The read-modify-write all four toggles perform. *)
Definition field_update (mask field c : Z) : Z :=
  Int.to_uint16 (Z.lor (Z.land (Int.to_uint16 c) (Z.lnot mask)) field).

(** [c'] agrees with [c] on every bit the mask leaves out. *)
Definition same_outside (mask c c' : Z) : Prop :=
  forall n, Z.testbit mask n = false -> Z.testbit c' n = Z.testbit c n.

(** [c'] agrees with [c] on every bit of the mask. *)
Definition same_inside (mask c c' : Z) : Prop :=
  forall n, Z.testbit mask n = true -> Z.testbit c' n = Z.testbit c n.

(** ** Floats against decimal constants *)

(** [x] is within one part in [2 ^ 24] of the rational [q]: the distance a
    decimal constant can be from the float that stands for it. *)
Definition close_to (x : float) (q : Q) : Prop :=
  (Qabs (F32.to_Q x - q) <= q * (1 # 16777216))%Q.

(** [x] is within [tol] of the rational [q]. *)
Definition within (x : float) (q tol : Q) : Prop := (Qabs (F32.to_Q x - q) <= tol)%Q.

(** ** Outcomes of a calibration call *)

(** What a calibration routine leaves behind: the three cached members; on
    the bus the write of the calibration value to CALIBRATION followed by the
    write of the configuration to CONFIG, and nothing else; in the sensor
    these two registers set and every other register as it was. *)
Definition calibrated (st st' : State) (lsb_mA lsb_mW : float) (cal config : Z) : Prop :=
  ina219_currentLsb_mA (this st') = lsb_mA /\
  ina219_powerLsb_mW (this st') = lsb_mW /\
  ina219_calValue (this st') = cal /\
  ina219_i2caddr (this st') = ina219_i2caddr (this st) /\
  events (Wire st') =
    events (Wire st) ++
    [Transmit (bus_addr st)
       [INA219_REG_CALIBRATION; hi_byte (Int.to_uint16 cal); lo_byte (Int.to_uint16 cal)];
     Transmit (bus_addr st)
       [INA219_REG_CONFIG; hi_byte (Int.to_uint16 config); lo_byte (Int.to_uint16 config)]] /\
  reg_value (device (Wire st')) INA219_REG_CALIBRATION = Int.to_uint16 cal /\
  reg_value (device (Wire st')) INA219_REG_CONFIG = Int.to_uint16 config /\
  (forall r, r <> INA219_REG_CALIBRATION -> r <> INA219_REG_CONFIG ->
             reg_value (device (Wire st')) r = reg_value (device (Wire st)) r).

(** A call that fails fast returns, and returns with the handle and the bus
    as they were: no operating point was cached, nothing was written to the
    sensor. *)
Definition fails_fast (st : State) (outcome : option (unit * State)) : Prop :=
  exists st', outcome = Some (tt, st') /\
              this st' = this st /\ events (Wire st') = events (Wire st).

(** A call reproduces the operating point of the 32V/2A preset when it
    returns with calibration value 4096 and a current LSB of 0.1 mA, up to
    the given tolerance. *)
Definition reproduces_32V_2A (tol : Q) (outcome : option (unit * State)) : Prop :=
  exists st', outcome = Some (tt, st') /\
              ina219_calValue (this st') = 4096 /\
              within (ina219_currentLsb_mA (this st')) (1 # 10) tol.

Section Configurations.

Context `{hdr : INA219_header} `{tgt : Target}.

(** The CONFIG value of the two 32 V presets. *)
Definition preset_config_32V : Z :=
  Z.lor (Z.lor (Z.lor (Z.lor INA219_CONFIG_BVOLTAGERANGE_32V
                             INA219_CONFIG_GAIN_8_320MV)
                      INA219_CONFIG_BADCRES_12BIT)
               INA219_CONFIG_SADCRES_12BIT_1S_532US)
        INA219_CONFIG_MODE_SANDBVOLT_CONTINUOUS.

(** The CONFIG value of the 16 V preset. *)
Definition preset_config_16V : Z :=
  Z.lor (Z.lor (Z.lor (Z.lor INA219_CONFIG_BVOLTAGERANGE_16V
                             INA219_CONFIG_GAIN_1_40MV)
                      INA219_CONFIG_BADCRES_12BIT)
               INA219_CONFIG_SADCRES_12BIT_1S_532US)
        INA219_CONFIG_MODE_SANDBVOLT_CONTINUOUS.

(** The CONFIG value the generic routine assembles. *)
Definition generic_config (v_shunt_max v_bus_max : float) : Z :=
  Z.lor (Z.lor (Z.lor (Z.lor
    (Int.to_uint16 (if F32.ltb (F32.of_int 16) v_bus_max
                    then INA219_CONFIG_BVOLTAGERANGE_32V
                    else INA219_CONFIG_BVOLTAGERANGE_16V))
    (Int.to_uint16 (gain_bits (select_gain v_shunt_max))))
    INA219_CONFIG_BADCRES_12BIT)
    INA219_CONFIG_SADCRES_12BIT_1S_532US)
    INA219_CONFIG_MODE_SANDBVOLT_CONTINUOUS.

(** The calibration value the generic routine computes from a current LSB
    and the shunt resistance. *)
Definition generic_cal (current_lsb r_shunt : float) : Z :=
  float_to_uint16 (F32.div (F32.lit 4096 100000) (F32.mul current_lsb r_shunt)).

End Configurations.

(** ** What the generic calibration writes to CONFIG *)

Section GenericConfig.

Context `{hdr : INA219_header} `{tgt : Target}.

(** The bus-range bits [setCalibration_Def] picks: the 32 V range above 16,
    the 16 V range otherwise. *)
Definition bus_range_bits (v_bus_max : float) : Z :=
  if F32.ltb (F32.of_int 16) v_bus_max
  then INA219_CONFIG_BVOLTAGERANGE_32V
  else INA219_CONFIG_BVOLTAGERANGE_16V.

(** A CONFIG value with the given bus-range and gain bits and the fixed
    12-bit, single-sample, continuous shunt-and-bus settings. *)
Definition config_with (bvoltage gain : Z) : Z :=
  Z.lor (Z.lor (Z.lor (Z.lor bvoltage gain)
                      INA219_CONFIG_BADCRES_12BIT)
               INA219_CONFIG_SADCRES_12BIT_1S_532US)
        INA219_CONFIG_MODE_SANDBVOLT_CONTINUOUS.

(** [st'] is [st] after a calibration that wrote [config] (as a 16-bit
    value) to CONFIG: the register holds it, and the bus has seen the write
    of the cached calibration value to CALIBRATION and then the write of
    [config] to CONFIG. *)
Definition config_written (st st' : State) (config : Z) : Prop :=
  config_of st' = Int.to_uint16 config /\
  events (Wire st') =
    events (Wire st) ++
    [Transmit (bus_addr st)
       [INA219_REG_CALIBRATION;
        hi_byte (Int.to_uint16 (ina219_calValue (this st')));
        lo_byte (Int.to_uint16 (ina219_calValue (this st')))];
     Transmit (bus_addr st)
       [INA219_REG_CONFIG; hi_byte (Int.to_uint16 config); lo_byte (Int.to_uint16 config)]].

(** The call of [setCalibration_Def] returns and has written the CONFIG value
    made of the bus-range bits for [v_bus_max] and the gain bits [gain]. *)
Definition writes_gain (fuel : nat)
    (r_shunt v_shunt_max v_bus_max i_max_expected : float) (st : State) (gain : Z) : Prop :=
  exists st',
    setCalibration_Def fuel r_shunt v_shunt_max v_bus_max i_max_expected st = Some (tt, st') /\
    config_written st st' (config_with (bus_range_bits v_bus_max) gain).

End GenericConfig.

(** ** Example states *)

(** Memory that was used before: every member holds a stale value. *)
Definition stale_storage : Adafruit_INA219 :=
  {| ina219_i2caddr := 0x5A;
     ina219_currentLsb_mA := F32.of_int 3;
     ina219_powerLsb_mW := F32.of_int 7;
     ina219_calValue := 0xBEEF |}.

(** A sensor after power-on: CONFIG holds its reset value 0x399F, and the
    measurement registers hold a bus voltage of 24000 (3000 units shifted by
    three), a current of 100 and a power of 50. *)
Definition example_device : INA219_device :=
  {| reg_ptr := 0;
     regs := <[INA219_REG_POWER := 50]>
               (<[INA219_REG_CURRENT := 100]>
                  (<[INA219_REG_BUSVOLTAGE := 24000]>
                     (<[INA219_REG_CONFIG := 0x399F]> ∅))) |}.

(** A handle for address 0x40, constructed in zeroed memory, on a quiet bus
    with that sensor. *)
Definition example_state : State :=
  {| this := Adafruit_INA219_ctor
               {| ina219_i2caddr := 0; ina219_currentLsb_mA := F32.zero;
                  ina219_powerLsb_mW := F32.zero; ina219_calValue := 0 |} 0x40;
     Wire := {| tx_addr := 0; tx_buf := []; rx_buf := [];
                device := example_device; events := [] |} |}.

(** ** Checks over every value of a machine integer *)

(** [forall_block k lo p]: the test [p] holds for the [2 ^ k] integers from
    [lo] on. *)
Fixpoint forall_block (k : nat) (lo : Z) (p : Z -> bool) : bool :=
  match k with
  | O => p lo
  | S k' => forall_block k' lo p && forall_block k' (lo + 2 ^ Z.of_nat k') p
  end.

(** A float that stands for a number: a zero or a finite float. *)
Definition is_number (x : float) : bool :=
  match x with
  | S754_zero _ | S754_finite _ _ _ => true
  | S754_infinity _ | S754_nan => false
  end.

(** [x] is a number within [tol] of the rational [q]. *)
Definition accurate (x : float) (q tol : Q) : Prop :=
  is_number x = true /\ within x q tol.

(** A float as a fraction of integers: a finite float with a negative
    exponent [-k] is its signed mantissa over [2 ^ k]. *)
Definition to_fraction (x : float) : Z * positive :=
  match x with
  | S754_finite s m e =>
      match e with
      | Zneg k => (cond_Zopp s (Z.pos m), (2 ^ k)%positive)
      | _ => (cond_Zopp s (Z.pos m) * 2 ^ e, 1%positive)
      end
  | _ => (0, 1%positive)
  end.

(** The test that [x] is a number within [t / T] of [n / d], in integer
    arithmetic. *)
Definition accurate_zb (x : float) (n : Z) (d : positive) (t : Z) (T : positive) : bool :=
  is_number x &&
  (let (a, b) := to_fraction x in
   Z.abs (a * Z.pos d - n * Z.pos b) * Z.pos T <=? t * Z.pos (b * d)).

(** A float that is a zero, of either sign. *)
Definition is_zero (x : float) : bool :=
  match x with
  | S754_zero _ => true
  | _ => false
  end.

(** The cached calibration value is the one in the sensor's CALIBRATION
    register. *)
Definition cal_in_sync (st : State) : Prop :=
  reg_value (device (Wire st)) INA219_REG_CALIBRATION
  = Int.to_uint16 (ina219_calValue (this st)).

(** [st'] is [st] after a read-modify-write of CONFIG followed by the pauses
    [waits]: the read and the write-back of the new content are on the bus,
    every other register and the handle are as before. *)
Definition is_config_rewrite (waits : list bus_event) (st st' : State) : Prop :=
  events (Wire st') =
    events (Wire st) ++
    [Transmit (bus_addr st) [INA219_REG_CONFIG]; Delay 1; Request (bus_addr st) 2;
     Transmit (bus_addr st)
       [INA219_REG_CONFIG; hi_byte (config_of st'); lo_byte (config_of st')]] ++
    waits /\
  (forall r, r <> INA219_REG_CONFIG ->
     reg_value (device (Wire st')) r = reg_value (device (Wire st)) r) /\
  this st' = this st.

(** A handle in memory that was used before, never calibrated, on the bus of
    the example. *)
Definition example_state_stale : State :=
  {| this := Adafruit_INA219_ctor stale_storage 0x40; Wire := Wire example_state |}.

(** The value of a register as [int16_t]. *)
Definition signed_reg (st : State) (reg : Z) : Z :=
  Int.to_int16 (Int.to_uint16 (reg_value (device (Wire st)) reg)).

(** [st'] is [st] after one read of the register [reg] and nothing else: the
    read is on the bus, no register of the sensor has changed, the handle is
    as before. *)
Definition is_plain_read (reg : Z) (st st' : State) : Prop :=
  events (Wire st') =
    events (Wire st) ++
    [Transmit (bus_addr st) [reg]; Delay 1; Request (bus_addr st) 2] /\
  (forall r, reg_value (device (Wire st')) r = reg_value (device (Wire st)) r) /\
  this st' = this st.

(** An example sensor with a negative shunt voltage (-1250, that is
    -12.5 mV) and a POWER register above the signed range. *)
Definition example_state_reverse : State :=
  {| this := this example_state;
     Wire := {| tx_addr := 0; tx_buf := []; rx_buf := [];
                device := {| reg_ptr := 0;
                             regs := <[INA219_REG_POWER := 40000]>
                                       (<[INA219_REG_BUSVOLTAGE := 24005]>
                                          {[INA219_REG_SHUNTVOLTAGE := 64286]}) |};
                events := [] |} |}.

(** * Properties *)

(** ** Machine integers *)

Module IntFacts.

Import Int.

Lemma to_uint16_range z : 0 <= to_uint16 z < 65536.
Proof. unfold to_uint16. change (2 ^ 16) with 65536. apply Z.mod_pos_bound. lia. Qed.

Lemma to_uint16_small z : 0 <= z < 65536 -> to_uint16 z = z.
Proof. intros H. unfold to_uint16. change (2 ^ 16) with 65536. apply Z.mod_small, H. Qed.

Lemma to_int16_small z : -32768 <= z < 32768 -> to_int16 z = z.
Proof.
  intros H. unfold to_int16. change (2 ^ 15) with 32768. change (2 ^ 16) with 65536.
  rewrite Z.mod_small by lia. lia.
Qed.

End IntFacts.

(** ** Bytes and words *)

Lemma byte_mask_range x : 0 <= Z.land x 0xFF < 256.
Proof.
  change 0xFF with (Z.ones 8). rewrite Z.land_ones by lia.
  change (2 ^ 8) with 256. apply Z.mod_pos_bound. lia.
Qed.

Lemma to_uint8_byte x : Int.to_uint8 (Z.land x 0xFF) = Z.land x 0xFF.
Proof.
  unfold Int.to_uint8. change (2 ^ 8) with 256.
  apply Z.mod_small, byte_mask_range.
Qed.

Lemma to_uint8_idem z : Int.to_uint8 (Int.to_uint8 z) = Int.to_uint8 z.
Proof.
  unfold Int.to_uint8. change (2 ^ 8) with 256.
  apply Z.mod_small, Z.mod_pos_bound. lia.
Qed.

Lemma to_uint16_idem z : Int.to_uint16 (Int.to_uint16 z) = Int.to_uint16 z.
Proof. apply IntFacts.to_uint16_small, IntFacts.to_uint16_range. Qed.

(** Splitting a word into its two bytes and joining them, high byte first,
    keeps the low 16 bits. *)
Lemma be_join_split v :
  Z.lor (Z.shiftl (Z.land (Z.shiftr v 8) 0xFF) 8) (Z.land v 0xFF) = Int.to_uint16 v.
Proof.
  unfold Int.to_uint16. rewrite <- Z.land_ones by lia.
  apply Z.bits_inj'. intros n Hn.
  rewrite Z.lor_spec, !Z.land_spec.
  change 0xFF with (Z.ones 8).
  destruct (Z.ltb_spec n 8) as [Hlt | Hge].
  - rewrite Z.shiftl_spec_low by lia.
    rewrite !Z.ones_spec_low by lia. simpl. reflexivity.
  - rewrite Z.shiftl_spec by lia. rewrite Z.land_spec, Z.shiftr_spec by lia.
    replace (n - 8 + 8) with n by lia.
    rewrite (Z.ones_spec_high 8 n) by lia. rewrite Bool.andb_false_r, Bool.orb_false_r.
    destruct (Z.ltb_spec n 16) as [Hlt | Hge'].
    + rewrite !Z.ones_spec_low by lia. reflexivity.
    + rewrite !Z.ones_spec_high by lia. reflexivity.
Qed.

Lemma to_uint16_testbit z n : 0 <= n < 16 -> Z.testbit (Int.to_uint16 z) n = Z.testbit z n.
Proof. intros H. unfold Int.to_uint16. apply Z.mod_pow2_bits_low. lia. Qed.

Lemma to_uint16_testbit_high z n : 16 <= n -> Z.testbit (Int.to_uint16 z) n = false.
Proof. intros H. unfold Int.to_uint16. apply Z.mod_pow2_bits_high. lia. Qed.

(** ** What one register access does *)

Section RegisterLink.

Lemma wireWriteRegister_run reg value st :
  wireWriteRegister reg value st = (tt, after_write reg value st).
Proof.
  unfold wireWriteRegister, after_write, bus_addr, hi_byte, lo_byte.
  unfold bind, get_this, Wire_beginTransmission, Wire_write, Wire_endTransmission,
    modify_Wire. cbn.
  rewrite !to_uint8_byte, !to_uint8_idem, be_join_split, to_uint16_idem. reflexivity.
Qed.

Lemma wireReadRegister_run reg st :
  wireReadRegister reg st =
  (Int.to_uint16 (reg_value (device (Wire st)) (Int.to_uint8 reg)), after_read reg st).
Proof.
  unfold wireReadRegister, after_read, bus_addr.
  unfold bind, get_this, Wire_beginTransmission, Wire_write, Wire_endTransmission,
    Wire_requestFrom, Wire_read, delay, modify_Wire, ret, device_send.
  change (Z.to_nat 2) with 2%nat. cbn.
  rewrite !to_uint8_idem, be_join_split, to_uint16_idem.
  rewrite <- !app_assoc. reflexivity.
Qed.

Lemma reg_value_after_write reg value st :
  reg_value (device (Wire (after_write reg value st))) (Int.to_uint8 reg) = Int.to_uint16 value.
Proof. unfold reg_value, after_write. cbn. rewrite lookup_insert_eq. reflexivity. Qed.

Lemma reg_value_after_write_ne reg value st r :
  Int.to_uint8 reg <> r ->
  reg_value (device (Wire (after_write reg value st))) r = reg_value (device (Wire st)) r.
Proof.
  intros Hne. unfold reg_value, after_write. cbn.
  rewrite lookup_insert_ne by exact Hne. reflexivity.
Qed.

Lemma reg_value_after_read reg st r :
  reg_value (device (Wire (after_read reg st))) r = reg_value (device (Wire st)) r.
Proof. reflexivity. Qed.

Lemma this_after_write reg value st : this (after_write reg value st) = this st.
Proof. reflexivity. Qed.

Lemma this_after_read reg st : this (after_read reg st) = this st.
Proof. reflexivity. Qed.

Lemma bus_addr_after_write reg value st : bus_addr (after_write reg value st) = bus_addr st.
Proof. reflexivity. Qed.

Lemma bus_addr_after_read reg st : bus_addr (after_read reg st) = bus_addr st.
Proof. reflexivity. Qed.

Lemma events_after_write reg value st :
  events (Wire (after_write reg value st)) =
  events (Wire st) ++
  [Transmit (bus_addr st)
     [Int.to_uint8 reg; hi_byte (Int.to_uint16 value); lo_byte (Int.to_uint16 value)]].
Proof. reflexivity. Qed.

Lemma events_after_read reg st :
  events (Wire (after_read reg st)) =
  events (Wire st) ++
  [Transmit (bus_addr st) [Int.to_uint8 reg]; Delay 1; Request (bus_addr st) 2].
Proof. reflexivity. Qed.

Lemma delay_run ms st : delay ms st = (tt, after_delay ms st).
Proof. reflexivity. Qed.

Lemma this_after_delay ms st : this (after_delay ms st) = this st.
Proof. reflexivity. Qed.

Lemma device_after_delay ms st : device (Wire (after_delay ms st)) = device (Wire st).
Proof. reflexivity. Qed.

Lemma events_after_delay ms st :
  events (Wire (after_delay ms st)) = events (Wire st) ++ [Delay ms].
Proof. reflexivity. Qed.

End RegisterLink.

#[global] Opaque after_write after_read after_delay.

Create Rewrite HintDb drv.

#[global] Hint Rewrite this_after_write this_after_read bus_addr_after_write
  bus_addr_after_read events_after_write events_after_read reg_value_after_read
  this_after_delay device_after_delay events_after_delay to_uint16_idem : drv.

(** Running a member function step by step: each register access is replaced
    by its effect. *)
Ltac run_driver :=
  unfold exec, eval, bind, get_this, modify_this, ret;
  repeat (first [ rewrite wireWriteRegister_run | rewrite wireReadRegister_run
                | rewrite delay_run ];
          cbv beta iota);
  repeat (progress
            (cbn [fst snd this Wire set_i2caddr set_currentLsb_mA set_powerLsb_mW
                  set_calValue ina219_i2caddr ina219_currentLsb_mA ina219_powerLsb_mW
                  ina219_calValue];
             autorewrite with drv)).

(** ** Construction *)

Section Construction.

(** The constructor zeroes both scale factors and stores the address; the
    calibration value is the one member it does not assign. *)
Lemma Adafruit_INA219_ctor_fields storage addr :
  let h := Adafruit_INA219_ctor storage addr in
  ina219_i2caddr h = Int.to_uint8 addr /\
  ina219_currentLsb_mA h = F32.zero /\
  ina219_powerLsb_mW h = F32.zero /\
  ina219_calValue h = ina219_calValue storage.
Proof. cbn. repeat split; reflexivity. Qed.

(** C3 (at the failing input): a handle constructed for address 0x40 in
    memory that held other data has both scale factors zero, but its
    calibration value is the stale 0xBEEF, not zero. *)
Theorem Adafruit_INA219_ctor_stale_calValue :
  let h := Adafruit_INA219_ctor stale_storage 0x40 in
  ina219_currentLsb_mA h = F32.zero /\
  ina219_powerLsb_mW h = F32.zero /\
  ina219_calValue h = 0xBEEF /\
  ina219_calValue h <> 0.
Proof. cbn. repeat split; try reflexivity. discriminate. Qed.

End Construction.

(** ** Raw readers *)

Section RawReaders.

(** C4: in every state of the handle, [getCurrent_raw] puts exactly four
    events on the bus, in this order: the three-byte transmission that writes
    the cached calibration value to the CALIBRATION register, then the read
    of the CURRENT register (pointer transmission, one millisecond of delay,
    request for two bytes).  Nothing comes between the write and the read;
    afterwards the sensor's CALIBRATION register holds the cached value, the
    handle is unchanged, and the result is the CURRENT register as a signed
    16-bit number. *)
Theorem getCurrent_raw_reasserts_calibration (st : State) :
  let cal := Int.to_uint16 (ina219_calValue (this st)) in
  let st' := exec getCurrent_raw st in
  events (Wire st') =
    events (Wire st) ++
    [Transmit (bus_addr st) [INA219_REG_CALIBRATION; hi_byte cal; lo_byte cal];
     Transmit (bus_addr st) [INA219_REG_CURRENT];
     Delay 1;
     Request (bus_addr st) 2] /\
  reg_value (device (Wire st')) INA219_REG_CALIBRATION = cal /\
  this st' = this st /\
  eval getCurrent_raw st =
    Int.to_int16 (Int.to_uint16 (reg_value (device (Wire st)) INA219_REG_CURRENT)).
Proof.
  unfold getCurrent_raw. run_driver.
  repeat apply conj.
  - rewrite <- app_assoc. reflexivity.
  - apply reg_value_after_write.
  - reflexivity.
  - rewrite reg_value_after_write_ne by discriminate. reflexivity.
Qed.

(** The decoding done by [getBusVoltage_raw], on the register's content. *)
Lemma getBusVoltage_raw_value (st : State) :
  eval getBusVoltage_raw st =
  Int.to_int16 (Int.to_uint16
    (Z.shiftr (Int.to_uint16 (reg_value (device (Wire st)) INA219_REG_BUSVOLTAGE)) 3 * 4)).
Proof. unfold getBusVoltage_raw. run_driver. reflexivity. Qed.

Lemma bus_decode_range (v : Z) :
  0 <= v < 65536 -> 0 <= Z.shiftr v 3 * 4 <= 32764 /\ (Z.shiftr v 3 * 4) mod 4 = 0.
Proof.
  intros Hv. rewrite Z.shiftr_div_pow2 by lia. change (2 ^ 3) with 8.
  split.
  - assert (0 <= v / 8) by (apply Z.div_pos; lia).
    assert (v / 8 < 8192) by (apply Z.div_lt_upper_bound; lia).
    lia.
  - apply Z.mod_mul. lia.
Qed.

(** C9: when the BUSVOLTAGE register holds [raw_voltage_units << 3] and that
    is an unsigned 16-bit register value, [getBusVoltage_raw] returns
    [raw_voltage_units * 4]: the three status bits are shifted out and the
    rest is multiplied by 4, which fits the signed 16-bit result. *)
Theorem getBusVoltage_raw_roundtrip (st : State) (raw_voltage_units : Z) :
  0 <= Z.shiftl raw_voltage_units 3 < 2 ^ 16 ->
  reg_value (device (Wire st)) INA219_REG_BUSVOLTAGE = Z.shiftl raw_voltage_units 3 ->
  eval getBusVoltage_raw st = raw_voltage_units * 4.
Proof.
  intros Hrep Hreg.
  rewrite getBusVoltage_raw_value, Hreg.
  rewrite Z.shiftl_mul_pow2 in * by lia. change (2 ^ 3) with 8 in *.
  change (2 ^ 16) with 65536 in Hrep.
  rewrite (IntFacts.to_uint16_small (raw_voltage_units * 8)) by lia.
  rewrite Z.shiftr_div_pow2 by lia. change (2 ^ 3) with 8.
  rewrite Z.div_mul by lia.
  rewrite IntFacts.to_uint16_small by lia.
  apply IntFacts.to_int16_small. lia.
Qed.

(** C10: whatever the BUSVOLTAGE register holds, the result of
    [getBusVoltage_raw] is a multiple of 4 between 0 and 32764; it is never
    negative. *)
Theorem getBusVoltage_raw_nonneg (st : State) :
  let r := eval getBusVoltage_raw st in
  0 <= r <= 32764 /\ r mod 4 = 0.
Proof.
  cbv zeta. rewrite getBusVoltage_raw_value.
  set (v := Int.to_uint16 (reg_value (device (Wire st)) INA219_REG_BUSVOLTAGE)).
  destruct (bus_decode_range v (IntFacts.to_uint16_range _)) as [Hr Hm].
  rewrite IntFacts.to_uint16_small by lia.
  rewrite IntFacts.to_int16_small by lia.
  split; assumption.
Qed.

End RawReaders.

(** ** Example states *)

Lemma getBusVoltage_raw_roundtrip_witness :
  0 <= Z.shiftl 3000 3 < 2 ^ 16 /\
  reg_value (device (Wire example_state)) INA219_REG_BUSVOLTAGE = Z.shiftl 3000 3 /\
  eval getBusVoltage_raw example_state = 3000 * 4.
Proof.
  split; [split; [discriminate | reflexivity] | split; [reflexivity |]].
  apply (getBusVoltage_raw_roundtrip example_state 3000);
    [split; [discriminate | reflexivity] | reflexivity].
Defined.

(** With all sixteen bits set in the register the result is 32764. *)
Example getBusVoltage_raw_full_scale :
  eval getBusVoltage_raw
    {| this := this example_state;
       Wire := {| tx_addr := 0; tx_buf := []; rx_buf := [];
                  device := {| reg_ptr := 0; regs := {[INA219_REG_BUSVOLTAGE := 0xFFFF]} |};
                  events := [] |} |} = 32764.
Proof. vm_compute. reflexivity. Qed.

(** ** Sampling-mode toggles *)

Section Toggles.

Context `{hdr : INA219_header}.

Lemma field_in_mask_bit mask field n :
  Z.land field (Z.lnot mask) = 0 -> 0 <= n -> Z.testbit mask n = false ->
  Z.testbit field n = false.
Proof.
  intros Hin Hn Hm.
  assert (Hb : Z.testbit (Z.land field (Z.lnot mask)) n = false)
    by (rewrite Hin; apply Z.bits_0).
  rewrite Z.land_spec, Z.lnot_spec, Hm in Hb by lia.
  rewrite Bool.andb_true_r in Hb. exact Hb.
Qed.

Lemma field_update_outside mask field c :
  Z.land field (Z.lnot mask) = 0 -> 0 <= c < 2 ^ 16 ->
  same_outside mask c (field_update mask field c).
Proof.
  intros Hin Hc n Hm. unfold field_update.
  rewrite (IntFacts.to_uint16_small c) by (change (2 ^ 16) with 65536 in Hc; lia).
  destruct (Z.ltb_spec n 0) as [Hneg | Hn].
  - rewrite !Z.testbit_neg_r by lia. reflexivity.
  - destruct (Z.ltb_spec n 16) as [Hlt | Hge].
    + rewrite to_uint16_testbit by lia.
      rewrite Z.lor_spec, Z.land_spec, Z.lnot_spec, Hm by lia.
      rewrite (field_in_mask_bit mask field n Hin Hn Hm).
      rewrite Bool.andb_true_r, Bool.orb_false_r. reflexivity.
    + rewrite to_uint16_testbit_high by lia.
      rewrite <- (IntFacts.to_uint16_small c) by (change (2 ^ 16) with 65536 in Hc; lia).
      rewrite to_uint16_testbit_high by lia. reflexivity.
Qed.

(** Inside the mask the register takes the bits of the new field value. *)
Lemma field_update_inside mask field c n :
  0 <= n < 16 -> Z.testbit mask n = true ->
  Z.testbit (field_update mask field c) n = Z.testbit field n.
Proof.
  intros Hn Hm. unfold field_update.
  rewrite to_uint16_testbit by lia.
  rewrite Z.lor_spec, Z.land_spec, Z.lnot_spec, Hm by lia.
  rewrite Bool.andb_false_r. reflexivity.
Qed.

Lemma disjoint_masks_bit m1 m2 n :
  Z.land m1 m2 = 0 -> Z.testbit m2 n = true -> Z.testbit m1 n = false.
Proof.
  intros Hd H2.
  assert (Hb : Z.testbit (Z.land m1 m2) n = false) by (rewrite Hd; apply Z.bits_0).
  rewrite Z.land_spec, H2, Bool.andb_true_r in Hb. exact Hb.
Qed.

Lemma same_outside_inside m1 m2 c c' :
  Z.land m1 m2 = 0 -> same_outside m1 c c' -> same_inside m2 c c'.
Proof.
  intros Hd Ho n Hn. apply Ho. eapply disjoint_masks_bit; eassumption.
Qed.

Lemma setAmpInstant_config st :
  config_of (exec setAmpInstant st) =
  field_update INA219_CONFIG_SADCRES_MASK INA219_CONFIG_SADCRES_12BIT_1S_532US (config_of st).
Proof.
  unfold setAmpInstant, config_of, field_update. run_driver.
  rewrite reg_value_after_write, to_uint16_idem. reflexivity.
Qed.

Lemma setAmpAverage_config st :
  config_of (exec setAmpAverage st) =
  field_update INA219_CONFIG_SADCRES_MASK INA219_CONFIG_SADCRES_12BIT_128S_69MS (config_of st).
Proof.
  unfold setAmpAverage, config_of, field_update. run_driver.
  rewrite reg_value_after_write, to_uint16_idem. reflexivity.
Qed.

Lemma setVoltInstant_config st :
  config_of (exec setVoltInstant st) =
  field_update INA219_CONFIG_BADCRES_MASK INA219_CONFIG_BADCRES_12BIT (config_of st).
Proof.
  unfold setVoltInstant, config_of, field_update. run_driver.
  rewrite reg_value_after_write, to_uint16_idem. reflexivity.
Qed.

Lemma setVoltAverage_config st :
  config_of (exec setVoltAverage st) =
  field_update INA219_CONFIG_BADCRES_MASK INA219_CONFIG_BADCRES_12BIT_128S_69MS (config_of st).
Proof.
  unfold setVoltAverage, config_of, field_update. run_driver.
  rewrite reg_value_after_write, to_uint16_idem. reflexivity.
Qed.

(** The averaged modes end with the 69 ms wait, after the write-back. *)
Lemma setAmpAverage_events st :
  events (Wire (exec setAmpAverage st)) =
  events (Wire st) ++
  [Transmit (bus_addr st) [INA219_REG_CONFIG]; Delay 1; Request (bus_addr st) 2;
   Transmit (bus_addr st)
     [INA219_REG_CONFIG;
      hi_byte (field_update INA219_CONFIG_SADCRES_MASK
                 INA219_CONFIG_SADCRES_12BIT_128S_69MS (config_of st));
      lo_byte (field_update INA219_CONFIG_SADCRES_MASK
                 INA219_CONFIG_SADCRES_12BIT_128S_69MS (config_of st))];
   Delay 69].
Proof.
  unfold setAmpAverage, config_of, field_update. run_driver.
  rewrite <- !app_assoc. reflexivity.
Qed.

(** C8: with a header whose ADC field values lie inside their masks and whose
    two ADC masks are disjoint, and for every 16-bit content of CONFIG: after
    [setAmpInstant] or [setAmpAverage] the register differs from before in
    bits of the SADC mask only, so the BADC bits (and bus range, gain and
    mode) are as before; after [setVoltInstant] or [setVoltAverage] it
    differs in bits of the BADC mask only, so the SADC bits are as before. *)
Theorem sampling_toggles_isolated (st : State) :
  header_fields_ok ->
  0 <= config_of st < 2 ^ 16 ->
  let c := config_of st in
  (same_outside INA219_CONFIG_SADCRES_MASK c (config_of (exec setAmpInstant st)) /\
   same_inside INA219_CONFIG_BADCRES_MASK c (config_of (exec setAmpInstant st))) /\
  (same_outside INA219_CONFIG_SADCRES_MASK c (config_of (exec setAmpAverage st)) /\
   same_inside INA219_CONFIG_BADCRES_MASK c (config_of (exec setAmpAverage st))) /\
  (same_outside INA219_CONFIG_BADCRES_MASK c (config_of (exec setVoltInstant st)) /\
   same_inside INA219_CONFIG_SADCRES_MASK c (config_of (exec setVoltInstant st))) /\
  (same_outside INA219_CONFIG_BADCRES_MASK c (config_of (exec setVoltAverage st)) /\
   same_inside INA219_CONFIG_SADCRES_MASK c (config_of (exec setVoltAverage st))).
Proof.
  intros [H1 H2 H3 H4 Hd] Hc c.
  assert (Hd' : Z.land INA219_CONFIG_BADCRES_MASK INA219_CONFIG_SADCRES_MASK = 0)
    by (rewrite Z.land_comm; exact Hd).
  rewrite setAmpInstant_config, setAmpAverage_config,
    setVoltInstant_config, setVoltAverage_config.
  repeat apply conj;
    first [ apply field_update_outside; assumption
          | eapply same_outside_inside;
            [ eassumption | apply field_update_outside; assumption ] ].
Qed.

End Toggles.

Lemma datasheet_header_fields_ok : @header_fields_ok datasheet_header.
Proof. split; reflexivity. Defined.

Lemma sampling_toggles_isolated_witness :
  let hdr := datasheet_header in
  let c := config_of example_state in
  (same_outside INA219_CONFIG_SADCRES_MASK c (config_of (exec setAmpInstant example_state)) /\
   same_inside INA219_CONFIG_BADCRES_MASK c (config_of (exec setAmpInstant example_state))) /\
  (same_outside INA219_CONFIG_SADCRES_MASK c (config_of (exec setAmpAverage example_state)) /\
   same_inside INA219_CONFIG_BADCRES_MASK c (config_of (exec setAmpAverage example_state))) /\
  (same_outside INA219_CONFIG_BADCRES_MASK c (config_of (exec setVoltInstant example_state)) /\
   same_inside INA219_CONFIG_SADCRES_MASK c (config_of (exec setVoltInstant example_state))) /\
  (same_outside INA219_CONFIG_BADCRES_MASK c (config_of (exec setVoltAverage example_state)) /\
   same_inside INA219_CONFIG_SADCRES_MASK c (config_of (exec setVoltAverage example_state))).
Proof.
  apply (@sampling_toggles_isolated datasheet_header example_state).
  - exact datasheet_header_fields_ok.
  - split; [discriminate | reflexivity].
Defined.

Example setAmpAverage_example :
  config_of (exec (@setAmpAverage datasheet_header) example_state) = 0x39FF.
Proof. vm_compute. reflexivity. Qed.

Example setVoltAverage_example :
  config_of (exec (@setVoltAverage datasheet_header) example_state) = 0x3F9F.
Proof. vm_compute. reflexivity. Qed.

(** ** Calibration presets *)

Ltac decide_Q := vm_compute; discriminate.

Lemma lit_0_1_close : close_to (F32.lit 1 10) (1 # 10).
Proof. decide_Q. Qed.

Lemma lit_0_04_close : close_to (F32.lit 4 100) (4 # 100).
Proof. decide_Q. Qed.

Lemma lit_0_8_close : close_to (F32.lit 8 10) (8 # 10).
Proof. decide_Q. Qed.

Lemma lit_0_05_close : close_to (F32.lit 5 100) (5 # 100).
Proof. decide_Q. Qed.

Ltac run_calibration :=
  unfold calibrated; run_driver;
  repeat apply conj;
  [ reflexivity | reflexivity | reflexivity | reflexivity
  | unfold bus_addr;
    cbn [this set_i2caddr set_currentLsb_mA set_powerLsb_mW set_calValue ina219_i2caddr];
    rewrite <- app_assoc; reflexivity
  | rewrite reg_value_after_write_ne by discriminate;
    rewrite reg_value_after_write; reflexivity
  | rewrite reg_value_after_write; autorewrite with drv; reflexivity
  | intros r Hcal Hcfg;
    rewrite !reg_value_after_write_ne
      by (intros <-; solve [apply Hcal; reflexivity | apply Hcfg; reflexivity]);
    reflexivity ].

Section Presets.

Context `{hdr : INA219_header}.

Lemma setCalibration_32V_2A_run st :
  calibrated st (exec setCalibration_32V_2A st)
    (F32.lit 1 10) (F32.of_int 2) 4096 preset_config_32V.
Proof. unfold setCalibration_32V_2A. run_calibration. Qed.

Lemma setCalibration_32V_1A_run st :
  calibrated st (exec setCalibration_32V_1A st)
    (F32.lit 4 100) (F32.lit 8 10) 10240 preset_config_32V.
Proof. unfold setCalibration_32V_1A. run_calibration. Qed.

Lemma setCalibration_16V_400mA_run st :
  calibrated st (exec setCalibration_16V_400mA st)
    (F32.lit 5 100) (F32.of_int 1) 8192 preset_config_16V.
Proof. unfold setCalibration_16V_400mA. run_calibration. Qed.

(** C5: each preset caches its literal constants and writes its calibration
    value to the CALIBRATION register (then the configuration to CONFIG):
    32V/2A caches the float of 0.1 (mA), 2 (mW) and 4096; 32V/1A caches the
    floats of 0.04 and 0.8 and 10240; 16V/400mA caches the float of 0.05, 1
    and 8192.  The floats of 2 and 1 are exact, those of the decimal
    constants are within one part in [2 ^ 24] of them. *)
Theorem presets_set_literal_constants (st : State) :
  (calibrated st (exec setCalibration_32V_2A st)
     (F32.lit 1 10) (F32.of_int 2) 4096 preset_config_32V /\
   close_to (F32.lit 1 10) (1 # 10) /\ (F32.to_Q (F32.of_int 2) == 2)%Q) /\
  (calibrated st (exec setCalibration_32V_1A st)
     (F32.lit 4 100) (F32.lit 8 10) 10240 preset_config_32V /\
   close_to (F32.lit 4 100) (4 # 100) /\ close_to (F32.lit 8 10) (8 # 10)) /\
  (calibrated st (exec setCalibration_16V_400mA st)
     (F32.lit 5 100) (F32.of_int 1) 8192 preset_config_16V /\
   close_to (F32.lit 5 100) (5 # 100) /\ (F32.to_Q (F32.of_int 1) == 1)%Q).
Proof.
  split; [| split].
  - split; [exact (setCalibration_32V_2A_run st) |].
    split; [exact lit_0_1_close | vm_compute; reflexivity].
  - split; [exact (setCalibration_32V_1A_run st) |].
    split; [exact lit_0_04_close | exact lit_0_8_close].
  - split; [exact (setCalibration_16V_400mA_run st) |].
    split; [exact lit_0_05_close | vm_compute; reflexivity].
Qed.

Lemma eval_seq {A B} (c : Drv A) (k : Drv B) (st : State) :
  eval (c ;; k) st = eval k (exec c st).
Proof. unfold eval, exec, bind. destruct (c st) as [a st']. reflexivity. Qed.

(** The conversions: the raw reading times the cached scale factor. *)
Lemma getCurrent_mA_value (st : State) :
  eval getCurrent_mA st =
  F32.mul
    (F32.of_int (Int.to_int16
       (Int.to_uint16 (reg_value (device (Wire st)) INA219_REG_CURRENT))))
    (ina219_currentLsb_mA (this st)).
Proof.
  unfold getCurrent_mA, getCurrent_raw. run_driver.
  rewrite reg_value_after_write_ne by discriminate. reflexivity.
Qed.

Lemma getPower_mW_value (st : State) :
  eval getPower_mW st =
  F32.mul
    (F32.of_int (Int.to_int16
       (Int.to_uint16 (reg_value (device (Wire st)) INA219_REG_POWER))))
    (ina219_powerLsb_mW (this st)).
Proof. unfold getPower_mW, getPower_raw. run_driver. reflexivity. Qed.

Lemma getCurrent_raw_reading (st : State) :
  eval getCurrent_raw st =
  Int.to_int16 (Int.to_uint16 (reg_value (device (Wire st)) INA219_REG_CURRENT)).
Proof.
  unfold getCurrent_raw. run_driver.
  rewrite reg_value_after_write_ne by discriminate. reflexivity.
Qed.

Lemma getPower_raw_reading (st : State) :
  eval getPower_raw st =
  Int.to_int16 (Int.to_uint16 (reg_value (device (Wire st)) INA219_REG_POWER)).
Proof. unfold getPower_raw. run_driver. reflexivity. Qed.

(** C6: in every state [getCurrent_mA] is the raw current reading times the
    cached current LSB and [getPower_mW] is the raw power reading times the
    cached power LSB (float products).  After [setCalibration_32V_2A] the
    cached factors are the floats of 0.1 and 2; so with 100 in the CURRENT
    register the raw current is 100 and [getCurrent_mA] returns the float
    10.0 (100 times the float of 0.1 rounds to 10.0), and with 50 in the
    POWER register the raw power is 50 and [getPower_mW] returns the float
    100.0 (50 times 2, without rounding). *)
Theorem preset_32V_2A_conversions (st : State) :
  (forall s, eval getCurrent_mA s =
             F32.mul (F32.of_int (eval getCurrent_raw s)) (ina219_currentLsb_mA (this s))) /\
  (forall s, eval getPower_mW s =
             F32.mul (F32.of_int (eval getPower_raw s)) (ina219_powerLsb_mW (this s))) /\
  (reg_value (device (Wire st)) INA219_REG_CURRENT = 100 ->
   reg_value (device (Wire st)) INA219_REG_POWER = 50 ->
   let st' := exec setCalibration_32V_2A st in
   let mA := eval (setCalibration_32V_2A ;; getCurrent_mA) st in
   let mW := eval (setCalibration_32V_2A ;; getPower_mW) st in
   (ina219_currentLsb_mA (this st') = F32.lit 1 10 /\
    ina219_powerLsb_mW (this st') = F32.of_int 2) /\
   (eval getCurrent_raw st' = 100 /\ eval getPower_raw st' = 50) /\
   (mA = F32.of_int 10 /\ (F32.to_Q mA == 10)%Q) /\
   (mW = F32.of_int 100 /\ (F32.to_Q mW == 100)%Q)).
Proof.
  split; [| split].
  - intros s. rewrite getCurrent_mA_value, getCurrent_raw_reading. reflexivity.
  - intros s. rewrite getPower_mW_value, getPower_raw_reading. reflexivity.
  - intros Hcur Hpow.
    destruct (setCalibration_32V_2A_run st) as (HmA & HmW & _ & _ & _ & _ & _ & Hframe).
    assert (Hcurrent : eval (setCalibration_32V_2A ;; getCurrent_mA) st = F32.of_int 10).
    { rewrite eval_seq, getCurrent_mA_value, HmA, Hframe by discriminate.
      rewrite Hcur. vm_compute. reflexivity. }
    assert (Hpower : eval (setCalibration_32V_2A ;; getPower_mW) st = F32.of_int 100).
    { rewrite eval_seq, getPower_mW_value, HmW, Hframe by discriminate.
      rewrite Hpow. vm_compute. reflexivity. }
    cbv zeta. rewrite Hcurrent, Hpower.
    split; [split; assumption |].
    split.
    + rewrite getCurrent_raw_reading, getPower_raw_reading.
      rewrite !Hframe by discriminate. rewrite Hcur, Hpow.
      split; vm_compute; reflexivity.
    + repeat apply conj; vm_compute; reflexivity.
Qed.

End Presets.

Lemma preset_32V_2A_conversions_witness :
  let hdr := datasheet_header in
  reg_value (device (Wire example_state)) INA219_REG_CURRENT = 100 /\
  reg_value (device (Wire example_state)) INA219_REG_POWER = 50 /\
  eval (setCalibration_32V_2A ;; getCurrent_mA) example_state = F32.of_int 10 /\
  eval (setCalibration_32V_2A ;; getPower_mW) example_state = F32.of_int 100.
Proof.
  split; [reflexivity | split; [reflexivity |]].
  destruct (@preset_32V_2A_conversions datasheet_header example_state)
    as (_ & _ & Hvec).
  destruct (Hvec eq_refl eq_refl) as (_ & _ & [HmA _] & [HmW _]).
  split; [exact HmA | exact HmW].
Defined.

(** The bytes of the 32V/2A preset on the bus, with the data-sheet header. *)
Example setCalibration_32V_2A_example :
  events (Wire (exec (@setCalibration_32V_2A datasheet_header) example_state)) =
  [Transmit 0x40 [0x05; 0x10; 0x00]; Transmit 0x40 [0x00; 0x3C; 0x1F]].
Proof. vm_compute. reflexivity. Qed.

(** ** The order on floats *)

Ltac compare_cases :=
  repeat match goal with
  | H : context [Pos.compare_cont Eq ?a ?b] |- _ =>
      change (Pos.compare_cont Eq a b) with (Pos.compare a b) in H
  | |- context [Pos.compare_cont Eq ?a ?b] =>
      change (Pos.compare_cont Eq a b) with (Pos.compare a b)
  end;
  repeat match goal with
  | H : context [Z.compare ?a ?b] |- _ => destruct (Z.compare_spec a b)
  | |- context [Z.compare ?a ?b] => destruct (Z.compare_spec a b)
  | H : context [Pos.compare ?a ?b] |- _ => destruct (Pos.compare_spec a b)
  | |- context [Pos.compare ?a ?b] => destruct (Pos.compare_spec a b)
  end;
  cbn in *; try discriminate; try reflexivity; try lia.

Lemma ltb_not_leb a b : F32.ltb a b = true -> F32.leb b a = false.
Proof.
  unfold F32.ltb, F32.leb, SFltb, SFleb.
  destruct a as [[]|[]| |[] m1 e1], b as [[]|[]| |[] m2 e2]; cbn;
    try discriminate; try reflexivity; intros H; compare_cases.
Qed.

Lemma leb_trans a b c : F32.leb a b = true -> F32.leb b c = true -> F32.leb a c = true.
Proof.
  unfold F32.leb, SFleb.
  destruct a as [[]|[]| |[] m1 e1], b as [[]|[]| |[] m2 e2], c as [[]|[]| |[] m3 e3]; cbn;
    try discriminate; try reflexivity; intros H1 H2; try discriminate; compare_cases.
Qed.

(** A float that does not reach a bound does not reach a smaller one. *)
Lemma leb_false_below v a b :
  F32.leb a b = true -> F32.leb v b = false -> F32.leb v a = false.
Proof.
  intros Hab Hvb. destruct (F32.leb v a) eqn:Hva; [| reflexivity].
  rewrite (leb_trans v a b Hva Hab) in Hvb. discriminate.
Qed.

(** Rounding keeps the sign it is given: a result rounded with the negative
    sign is never above zero. *)
Lemma binary_round_aux_negative mx ex lx :
  F32.ltb F32.zero (binary_round_aux F32.prec F32.emax true mx ex lx) = false.
Proof.
  unfold binary_round_aux.
  destruct (shr_fexp F32.prec F32.emax mx ex lx) as [mrs' e'].
  destruct (shr_fexp F32.prec F32.emax _ e' loc_Exact) as [mrs'' e''].
  destruct (shr_m mrs'') as [| p | p]; [reflexivity | | reflexivity].
  destruct (e'' <=? F32.emax - F32.prec); reflexivity.
Qed.

(** A non-positive expected current gives a minimum LSB that is not above
    zero (negative, a zero, or the negative infinity). *)
Lemma min_lsb_nonpositive (i_max_expected : float) :
  F32.leb i_max_expected F32.zero = true ->
  F32.ltb F32.zero (F32.div i_max_expected (F32.of_int 32767)) = false.
Proof.
  replace (F32.of_int 32767) with (S754_finite false 16776704 (-9))
    by (vm_compute; reflexivity).
  destruct i_max_expected as [s | s | | s m e]; intros Hle.
  - destruct s; reflexivity.
  - destruct s; [reflexivity | discriminate Hle].
  - discriminate Hle.
  - destruct s; [| discriminate Hle].
    unfold F32.div, SFdiv.
    destruct (SFdiv_core_binary F32.prec F32.emax (Z.pos m) e 16776704 (-9))
      as [[mz ez] lz].
    apply binary_round_aux_negative.
Qed.

(** ** The gain selection *)

Section Gain.

Context `{hdr : INA219_header}.

Lemma gain_thresholds_ordered :
  F32.leb (F32.lit 4 100) (F32.lit 8 100) = true /\
  F32.leb (F32.lit 8 100) (F32.lit 160 1000) = true.
Proof. split; vm_compute; reflexivity. Qed.

(** Each threshold is the float just below its decimal constant: the
    constant lies between the threshold and the next float above it, so no
    float is above the threshold and at most the constant. *)
Lemma gain_thresholds_round_down :
  F32.lit 4 100 = S754_finite false 10737418 (-28) /\
  F32.lit 8 100 = S754_finite false 10737418 (-27) /\
  F32.lit 160 1000 = S754_finite false 10737418 (-26) /\
  (F32.to_Q (S754_finite false 10737418 (-28)) <= 4 # 100)%Q /\
  (4 # 100 < F32.to_Q (S754_finite false 10737419 (-28)))%Q /\
  (F32.to_Q (S754_finite false 10737418 (-27)) <= 8 # 100)%Q /\
  (8 # 100 < F32.to_Q (S754_finite false 10737419 (-27)))%Q /\
  (F32.to_Q (S754_finite false 10737418 (-26)) <= 16 # 100)%Q /\
  (16 # 100 < F32.to_Q (S754_finite false 10737419 (-26)))%Q.
Proof. repeat apply conj; vm_compute; first [reflexivity | discriminate]. Qed.

Lemma select_gain_1 v :
  F32.leb v (F32.lit 4 100) = true -> select_gain v = GAIN_1_40MV.
Proof. intros H. unfold select_gain. rewrite H. reflexivity. Qed.

Lemma select_gain_2 v :
  F32.ltb (F32.lit 4 100) v = true -> F32.leb v (F32.lit 8 100) = true ->
  select_gain v = GAIN_2_80MV.
Proof.
  intros H1 H2. unfold select_gain.
  rewrite (ltb_not_leb _ _ H1), H2. reflexivity.
Qed.

Lemma select_gain_4 v :
  F32.ltb (F32.lit 8 100) v = true -> F32.leb v (F32.lit 160 1000) = true ->
  select_gain v = GAIN_4_160MV.
Proof.
  intros H1 H2. unfold select_gain.
  destruct gain_thresholds_ordered as [H48 _].
  rewrite (leb_false_below v _ _ H48 (ltb_not_leb _ _ H1)).
  rewrite (ltb_not_leb _ _ H1), H2. reflexivity.
Qed.

Lemma select_gain_8 v :
  F32.leb v (F32.lit 160 1000) = false -> select_gain v = GAIN_8_320MV.
Proof.
  intros H. unfold select_gain.
  destruct gain_thresholds_ordered as [H48 H816].
  pose proof (leb_false_below v _ _ H816 H) as H8.
  rewrite (leb_false_below v _ _ H48 H8), H8, H. reflexivity.
Qed.

Lemma select_gain_monotone v1 v2 :
  F32.leb v1 v2 = true -> gain_index (select_gain v1) <= gain_index (select_gain v2).
Proof.
  intros Hle. unfold select_gain.
  destruct (F32.leb v2 (F32.lit 4 100)) eqn:H24.
  { rewrite (leb_trans _ _ _ Hle H24). cbn. lia. }
  destruct (F32.leb v2 (F32.lit 8 100)) eqn:H28.
  { pose proof (leb_trans _ _ _ Hle H28) as H18.
    destruct (F32.leb v1 (F32.lit 4 100)); [cbn; lia |]. rewrite H18. cbn. lia. }
  destruct (F32.leb v2 (F32.lit 160 1000)) eqn:H216.
  { pose proof (leb_trans _ _ _ Hle H216) as H116.
    destruct (F32.leb v1 (F32.lit 4 100)); [cbn; lia |].
    destruct (F32.leb v1 (F32.lit 8 100)); [cbn; lia |]. rewrite H116. cbn. lia. }
  destruct (F32.leb v1 (F32.lit 4 100)); [cbn; lia |].
  destruct (F32.leb v1 (F32.lit 8 100)); [cbn; lia |].
  destruct (F32.leb v1 (F32.lit 160 1000)); cbn; lia.
Qed.

End Gain.

(** ** The generic calibration *)

Section Generic.

Context `{hdr : INA219_header} `{tgt : Target}.

(** More fuel does not change a result the loop has reached. *)
Lemma round_lsb_more_fuel (n k : nat) (x : float) (digits : Z) (r : float) :
  round_lsb n x digits = Some r -> round_lsb (n + k) x digits = Some r.
Proof.
  revert x digits. induction n as [| n IH]; intros x digits H.
  - discriminate H.
  - cbn [round_lsb Nat.add] in *.
    destruct (F32.ltb F32.zero x); [| exact H].
    destruct (negb (float_to_uint16 x / 1 =? 0)); [exact H |].
    apply IH, H.
Qed.

(** With nothing above zero to round, the loop body never runs. *)
Lemma round_lsb_not_positive (fuel : nat) (x : float) (digits : Z) :
  F32.ltb F32.zero x = false -> round_lsb (S fuel) x digits = Some x.
Proof. intros H. cbn [round_lsb]. rewrite H. reflexivity. Qed.

Lemma setCalibration_Def_finish_run r_shunt v_shunt_max v_bus_max current_lsb st :
  calibrated st
    (exec (setCalibration_Def_finish r_shunt v_shunt_max v_bus_max current_lsb) st)
    (F32.mul current_lsb (F32.of_int 1000))
    (F32.mul (F32.mul current_lsb (F32.of_int 20)) (F32.of_int 1000))
    (generic_cal current_lsb r_shunt)
    (generic_config v_shunt_max v_bus_max).
Proof.
  unfold setCalibration_Def_finish, generic_cal, generic_config. cbv zeta.
  run_calibration.
Qed.

Lemma setCalibration_Def_finish_unit r_shunt v_shunt_max v_bus_max current_lsb st :
  setCalibration_Def_finish r_shunt v_shunt_max v_bus_max current_lsb st =
  (tt, exec (setCalibration_Def_finish r_shunt v_shunt_max v_bus_max current_lsb) st).
Proof.
  unfold exec.
  destruct (setCalibration_Def_finish r_shunt v_shunt_max v_bus_max current_lsb st)
    as [[] st'].
  reflexivity.
Qed.

(** C1 (amended): with a maximum expected current that is not above zero the
    rounding loop ends at once, without running its body; the routine does
    not raise an error but goes on with the unrounded minimum LSB: it caches
    the scale factors and the calibration value computed from it and writes
    the CALIBRATION and CONFIG registers. *)
Theorem setCalibration_Def_nonpositive (fuel : nat)
    (r_shunt v_shunt_max v_bus_max i_max_expected : float) (st : State) :
  F32.leb i_max_expected F32.zero = true ->
  let min_lsb := F32.div i_max_expected (F32.of_int 32767) in
  round_lsb (S fuel) min_lsb 0 = Some min_lsb /\
  exists st',
    setCalibration_Def (S fuel) r_shunt v_shunt_max v_bus_max i_max_expected st
      = Some (tt, st') /\
    calibrated st st'
      (F32.mul min_lsb (F32.of_int 1000))
      (F32.mul (F32.mul min_lsb (F32.of_int 20)) (F32.of_int 1000))
      (generic_cal min_lsb r_shunt)
      (generic_config v_shunt_max v_bus_max).
Proof.
  intros Hle min_lsb.
  pose proof (round_lsb_not_positive fuel min_lsb 0 (min_lsb_nonpositive _ Hle)) as Hloop.
  split; [exact Hloop |].
  eexists. split.
  - unfold setCalibration_Def. fold min_lsb. rewrite Hloop.
    rewrite setCalibration_Def_finish_unit. reflexivity.
  - apply setCalibration_Def_finish_run.
Qed.

(** The rounding of the minimum LSB for 2 A: 2 / 32767 is scaled by ten five
    times, to 6.1..., and becomes 7 / 100000. *)
Lemma round_lsb_2A (fuel : nat) :
  round_lsb (6 + fuel) (F32.div (F32.of_int 2) (F32.of_int 32767)) 0 =
  Some (F32.div (F32.of_int 7) (F32.pow10 5)).
Proof. apply round_lsb_more_fuel. vm_compute. reflexivity. Qed.

(** C2 (amended): for a shunt of 0.1 ohm, 0.32 V across it, a 32 V bus and
    2 A expected, the generic routine returns (six rounds of the loop are
    enough) with calibration value 5851 and a current LSB of 0.07 mA, a power
    LSB of 1.4 mW, and writes 5851 to the CALIBRATION register.  It does not
    arrive at the preset's 4096 and 0.1 mA. *)
Theorem setCalibration_Def_2A_operating_point (fuel : nat) (st : State) :
  exists st',
    setCalibration_Def (6 + fuel)
      (F32.lit 1 10) (F32.lit 32 100) (F32.of_int 32) (F32.of_int 2) st = Some (tt, st') /\
    ina219_calValue (this st') = 5851 /\
    within (ina219_currentLsb_mA (this st')) (7 # 100) (1 # 100000000) /\
    within (ina219_powerLsb_mW (this st')) (14 # 10) (1 # 10000000) /\
    reg_value (device (Wire st')) INA219_REG_CALIBRATION = 5851 /\
    calibrated st st'
      (F32.mul (F32.lit 7 100000) (F32.of_int 1000))
      (F32.mul (F32.mul (F32.lit 7 100000) (F32.of_int 20)) (F32.of_int 1000))
      5851
      (generic_config (F32.lit 32 100) (F32.of_int 32)).
Proof.
  pose proof (setCalibration_Def_finish_run (F32.lit 1 10) (F32.lit 32 100)
                (F32.of_int 32) (F32.lit 7 100000) st) as Hrun.
  assert (Hcal : generic_cal (F32.lit 7 100000) (F32.lit 1 10) = 5851)
    by (vm_compute; reflexivity).
  rewrite Hcal in Hrun.
  pose proof Hrun as (HmA & HmW & Hval & _ & _ & Hreg & _).
  eexists. split; [| split; [| split; [| split; [| split; [| exact Hrun]]]]].
  - unfold setCalibration_Def. rewrite round_lsb_2A.
    change (F32.div (F32.of_int 7) (F32.pow10 5)) with (F32.lit 7 100000).
    rewrite setCalibration_Def_finish_unit. reflexivity.
  - exact Hval.
  - rewrite HmA. decide_Q.
  - rewrite HmW. decide_Q.
  - rewrite Hreg. reflexivity.
Qed.

End Generic.

(** C1 (counterexample): asked to calibrate a 0.1 ohm shunt for an expected
    current of 0 A, the routine does not fail fast: it returns having sent
    two register writes, the first of them to CALIBRATION. *)
Lemma setCalibration_Def_zero_current_not_rejected :
  ~ fails_fast example_state
      (@setCalibration_Def datasheet_header zero_target 1
         (F32.lit 1 10) (F32.lit 32 100) (F32.of_int 32) (F32.of_int 0) example_state).
Proof.
  intros (st' & Hrun & _ & Hev).
  vm_compute in Hrun. injection Hrun as <-.
  vm_compute in Hev. discriminate Hev.
Qed.

Lemma setCalibration_Def_nonpositive_witness :
  F32.leb (F32.of_int 0) F32.zero = true /\
  exists st',
    @setCalibration_Def datasheet_header zero_target 1
      (F32.lit 1 10) (F32.lit 32 100) (F32.of_int 32) (F32.of_int 0) example_state
      = Some (tt, st') /\
    events (Wire st') <> events (Wire example_state).
Proof.
  split; [reflexivity |].
  destruct (@setCalibration_Def_nonpositive datasheet_header zero_target 0
              (F32.lit 1 10) (F32.lit 32 100) (F32.of_int 32) (F32.of_int 0)
              example_state eq_refl) as (_ & st' & Hrun & Hcal).
  exists st'. split; [exact Hrun |].
  destruct Hcal as (_ & _ & _ & _ & Hev & _).
  rewrite Hev. discriminate.
Defined.

(** C2 (counterexample): the call with 0.1 ohm, 0.32 V, 32 V and 2 A does not
    reproduce the 32V/2A preset, even with a tolerance of 0.01 mA on the
    current LSB: it returns with calibration value 5851. *)
Lemma setCalibration_Def_2A_differs_from_preset :
  ~ reproduces_32V_2A (1 # 100)
      (@setCalibration_Def datasheet_header zero_target 6
         (F32.lit 1 10) (F32.lit 32 100) (F32.of_int 32) (F32.of_int 2) example_state).
Proof.
  intros (st' & Hrun & Hcal & _).
  vm_compute in Hrun. injection Hrun as <-.
  vm_compute in Hcal. discriminate Hcal.
Qed.

(** The same call, evaluated. *)
Example setCalibration_Def_2A_example :
  match @setCalibration_Def datasheet_header zero_target 6
          (F32.lit 1 10) (F32.lit 32 100) (F32.of_int 32) (F32.of_int 2) example_state with
  | Some (_, st') =>
      ina219_calValue (this st') = 5851 /\
      ina219_currentLsb_mA (this st') = S754_finite false 9395241 (-27) /\
      events (Wire st') = [Transmit 0x40 [0x05; 0x16; 0xDB]; Transmit 0x40 [0x00; 0x3C; 0x1F]]
  | None => False
  end.
Proof. vm_compute. repeat split. Qed.

(** * Further properties of the driver *)

(** ** Checking a test on a block of integers *)

Lemma forall_block_spec (k : nat) (lo : Z) (p : Z -> bool) :
  forall_block k lo p = true ->
  forall z, lo <= z < lo + 2 ^ Z.of_nat k -> p z = true.
Proof.
  revert lo. induction k as [| k IH]; intros lo Hall z Hz.
  - cbn in Hz. cbn in Hall. replace z with lo by lia. exact Hall.
  - cbn [forall_block] in Hall. apply andb_prop in Hall as [Hlow Hhigh].
    rewrite Nat2Z.inj_succ, Z.pow_succ_r in Hz by lia.
    destruct (Z.lt_ge_cases z (lo + 2 ^ Z.of_nat k)) as [Hlt | Hge].
    + apply (IH lo Hlow). lia.
    + apply (IH (lo + 2 ^ Z.of_nat k) Hhigh). lia.
Qed.

Lemma to_Q_fraction (x : float) :
  (F32.to_Q x == fst (to_fraction x) # snd (to_fraction x))%Q.
Proof.
  destruct x as [s | s | | s m e]; try reflexivity.
  unfold F32.to_Q, to_fraction.
  destruct e as [| k | k]; cbn [fst snd].
  - rewrite Z.pow_0_r, Z.mul_1_r. change (Qpower 2 0) with 1%Q.
    rewrite Qmult_1_r. reflexivity.
  - change 2%Q with (2 # 1)%Q. rewrite Qpower_decomp_pos.
    unfold Qeq, Qmult, inject_Z. cbn [Qnum Qden].
    rewrite !Pos2Z.inj_mul, Pos2Z.inj_pow, Z.pow_1_l by lia. lia.
  - change 2%Q with (Z.pos 2 # 1)%Q. rewrite Qpower_decomp_neg_pos.
    rewrite Z.pow_1_l by lia. unfold Qeq, Qmult, inject_Z. cbn [Qnum Qden].
    rewrite !Pos2Z.inj_mul. lia.
Qed.

Lemma accurate_zb_spec x n d t T :
  accurate_zb x n d t T = true -> accurate x (n # d) (t # T).
Proof.
  unfold accurate_zb, accurate, within. intros H.
  apply andb_prop in H as [Hnum Hle]. split; [exact Hnum |].
  rewrite to_Q_fraction. destruct (to_fraction x) as [a b]. cbn [fst snd].
  apply Z.leb_le in Hle. rewrite Pos2Z.inj_mul in Hle.
  apply Qabs_Qle_condition. unfold Qle, Qminus, Qplus, Qopp. cbn [Qnum Qden].
  rewrite !Pos2Z.inj_mul. split; nia.
Qed.

Lemma to_int16_range (z : Z) : -32768 <= Int.to_int16 z < 32768.
Proof.
  unfold Int.to_int16. change (2 ^ 15) with 32768. change (2 ^ 16) with 65536.
  pose proof (Z.mod_pos_bound (z + 32768) 65536). lia.
Qed.

Lemma to_int16_to_uint16 (v : Z) :
  -32768 <= v < 32768 -> Int.to_int16 (Int.to_uint16 v) = v.
Proof.
  intros Hv. unfold Int.to_int16, Int.to_uint16.
  change (2 ^ 15) with 32768. change (2 ^ 16) with 65536.
  rewrite Zplus_mod_idemp_l. rewrite Z.mod_small by lia. lia.
Qed.

Lemma signed_reg_range (st : State) (reg : Z) : -32768 <= signed_reg st reg < 32768.
Proof. apply to_int16_range. Qed.

(** ** The register link *)

Lemma exec_wireWriteRegister reg value st :
  exec (wireWriteRegister reg value) st = after_write reg value st.
Proof. unfold exec. rewrite wireWriteRegister_run. reflexivity. Qed.

Lemma exec_wireReadRegister reg st :
  exec (wireReadRegister reg) st = after_read reg st.
Proof. unfold exec. rewrite wireReadRegister_run. reflexivity. Qed.

Lemma eval_wireReadRegister reg st :
  eval (wireReadRegister reg) st =
  Int.to_uint16 (reg_value (device (Wire st)) (Int.to_uint8 reg)).
Proof. unfold eval. rewrite wireReadRegister_run. reflexivity. Qed.

Lemma bytes_of_word (v : Z) :
  0 <= v < 65536 ->
  0 <= hi_byte v < 256 /\ 0 <= lo_byte v < 256 /\ hi_byte v * 256 + lo_byte v = v.
Proof.
  intros Hv. unfold hi_byte, lo_byte.
  change 0xFF with (Z.ones 8). rewrite !Z.land_ones by lia.
  rewrite Z.shiftr_div_pow2 by lia. change (2 ^ 8) with 256.
  assert (0 <= v / 256 < 256)
    by (split; [apply Z.div_pos; lia | apply Z.div_lt_upper_bound; lia]).
  rewrite (Z.mod_small (v / 256)) by lia.
  pose proof (Z.mod_pos_bound v 256).
  pose proof (Z.div_mod v 256). lia.
Qed.

(** X1: a value written to a register is the value read back from it, reduced
    to 16 bits: the split into two bytes on writing and the join on reading
    agree. *)
Theorem register_write_read_roundtrip (reg value : Z) (st : State) :
  eval (wireWriteRegister reg value ;; wireReadRegister reg) st = Int.to_uint16 value.
Proof.
  rewrite eval_seq, exec_wireWriteRegister, eval_wireReadRegister.
  rewrite reg_value_after_write. apply to_uint16_idem.
Qed.

(** X2: a register write is one transmission of three bytes to the handle's
    address: the register address, then the high and the low byte of the
    value (high byte times 256 plus low byte is the value reduced to 16
    bits).  Every other register of the sensor and the handle are left as
    they were. *)
Theorem register_write_wire_format (reg value : Z) (st : State) :
  let st' := exec (wireWriteRegister reg value) st in
  (exists hi lo,
     events (Wire st') =
       events (Wire st) ++ [Transmit (bus_addr st) [Int.to_uint8 reg; hi; lo]] /\
     0 <= hi < 256 /\ 0 <= lo < 256 /\
     hi * 256 + lo = Int.to_uint16 value) /\
  (forall r, r <> Int.to_uint8 reg ->
     reg_value (device (Wire st')) r = reg_value (device (Wire st)) r) /\
  this st' = this st.
Proof.
  cbv zeta. rewrite exec_wireWriteRegister.
  split; [| split].
  - exists (hi_byte (Int.to_uint16 value)), (lo_byte (Int.to_uint16 value)).
    rewrite events_after_write.
    destruct (bytes_of_word _ (IntFacts.to_uint16_range value)) as (Hh & Hl & Hv).
    repeat apply conj; try reflexivity; lia.
  - intros r Hr. apply reg_value_after_write_ne. congruence.
  - apply this_after_write.
Qed.

(** X3: a register read changes no register of the sensor and not the
    handle; its result is a 16-bit value; on the bus it is the transmission
    of the register address, a wait of one millisecond, and then the request
    for two bytes, in this order. *)
Theorem register_read_is_nondestructive (reg : Z) (st : State) :
  let st' := exec (wireReadRegister reg) st in
  (forall r, reg_value (device (Wire st')) r = reg_value (device (Wire st)) r) /\
  this st' = this st /\
  0 <= eval (wireReadRegister reg) st < 65536 /\
  events (Wire st') =
    events (Wire st) ++
    [Transmit (bus_addr st) [Int.to_uint8 reg]; Delay 1; Request (bus_addr st) 2].
Proof.
  cbv zeta. rewrite exec_wireReadRegister, eval_wireReadRegister.
  repeat apply conj.
  - intros r. apply reg_value_after_read.
  - apply this_after_read.
  - apply IntFacts.to_uint16_range.
  - apply IntFacts.to_uint16_range.
  - apply events_after_read.
Qed.

(** ** The raw readers *)

Lemma getShuntVoltage_raw_value (st : State) :
  eval getShuntVoltage_raw st = signed_reg st INA219_REG_SHUNTVOLTAGE.
Proof. unfold getShuntVoltage_raw, signed_reg. run_driver. reflexivity. Qed.

Lemma getPower_raw_value (st : State) :
  eval getPower_raw st = signed_reg st INA219_REG_POWER.
Proof. unfold getPower_raw, signed_reg. run_driver. reflexivity. Qed.

(** X4: [getShuntVoltage_raw] decodes two's complement: when the
    SHUNTVOLTAGE register holds the 16-bit pattern of a signed value [v], the
    result is [v], negative values included. *)
Theorem getShuntVoltage_raw_twos_complement (st : State) (v : Z) :
  -32768 <= v < 32768 ->
  reg_value (device (Wire st)) INA219_REG_SHUNTVOLTAGE = Int.to_uint16 v ->
  eval getShuntVoltage_raw st = v.
Proof.
  intros Hv Hreg. rewrite getShuntVoltage_raw_value. unfold signed_reg.
  rewrite Hreg, to_uint16_idem. apply to_int16_to_uint16, Hv.
Qed.

Lemma getShuntVoltage_raw_twos_complement_witness :
  -32768 <= -1250 < 32768 /\
  reg_value (device (Wire example_state_reverse)) INA219_REG_SHUNTVOLTAGE
    = Int.to_uint16 (-1250) /\
  eval getShuntVoltage_raw example_state_reverse = -1250.
Proof.
  split; [lia | split; [reflexivity |]].
  apply (getShuntVoltage_raw_twos_complement example_state_reverse (-1250));
    [lia | reflexivity].
Defined.

(** X5: [getPower_raw] hands out the POWER register as a signed number: a
    register value below 32768 comes out as it is, and a register value from
    32768 on comes out negative, lowered by 65536. *)
Theorem getPower_raw_reinterprets_sign (st : State) (p : Z) :
  0 <= p < 65536 ->
  reg_value (device (Wire st)) INA219_REG_POWER = p ->
  eval getPower_raw st = (if p <? 32768 then p else p - 65536).
Proof.
  intros Hp Hreg. rewrite getPower_raw_value. unfold signed_reg.
  rewrite Hreg, IntFacts.to_uint16_small by exact Hp.
  unfold Int.to_int16. change (2 ^ 15) with 32768. change (2 ^ 16) with 65536.
  destruct (Z.ltb_spec p 32768) as [Hlt | Hge].
  - rewrite Z.mod_small by lia. lia.
  - replace (p + 32768) with (p - 32768 + 1 * 65536) by lia.
    rewrite Z.mod_add by lia. rewrite Z.mod_small by lia. lia.
Qed.

Lemma getPower_raw_reinterprets_sign_witness :
  0 <= 40000 < 65536 /\
  reg_value (device (Wire example_state_reverse)) INA219_REG_POWER = 40000 /\
  eval getPower_raw example_state_reverse = -25536.
Proof.
  split; [lia | split; [reflexivity |]].
  apply (getPower_raw_reinterprets_sign example_state_reverse 40000);
    [lia | reflexivity].
Defined.

(** X6: the three low bits of the BUSVOLTAGE register (the status flags) have
    no influence on [getBusVoltage_raw]: with [8 * raw + flags] in the
    register, for a 13-bit [raw] and any flags, the result is [raw * 4]. *)
Theorem getBusVoltage_raw_ignores_flags (st : State) (raw flags : Z) :
  0 <= raw < 8192 ->
  0 <= flags < 8 ->
  reg_value (device (Wire st)) INA219_REG_BUSVOLTAGE = 8 * raw + flags ->
  eval getBusVoltage_raw st = raw * 4.
Proof.
  intros Hraw Hflags Hreg.
  rewrite getBusVoltage_raw_value, Hreg.
  rewrite (IntFacts.to_uint16_small (8 * raw + flags)) by lia.
  rewrite Z.shiftr_div_pow2 by lia. change (2 ^ 3) with 8.
  replace ((8 * raw + flags) / 8) with raw
    by (apply Z.div_unique with flags; lia).
  rewrite IntFacts.to_uint16_small by lia.
  apply IntFacts.to_int16_small. lia.
Qed.

Lemma getBusVoltage_raw_ignores_flags_witness :
  0 <= 3000 < 8192 /\ 0 <= 5 < 8 /\
  reg_value (device (Wire example_state_reverse)) INA219_REG_BUSVOLTAGE = 8 * 3000 + 5 /\
  eval getBusVoltage_raw example_state_reverse = 3000 * 4.
Proof.
  split; [lia | split; [lia | split; [reflexivity |]]].
  apply (getBusVoltage_raw_ignores_flags example_state_reverse 3000 5);
    [lia | lia | reflexivity].
Defined.

Lemma after_read_is_plain_read (reg : Z) (st : State) :
  Int.to_uint8 reg = reg -> is_plain_read reg st (after_read reg st).
Proof.
  intros Hreg. unfold is_plain_read. rewrite events_after_read, Hreg.
  repeat apply conj.
  - reflexivity.
  - intros r. apply reg_value_after_read.
  - apply this_after_read.
Qed.

Lemma getBusVoltage_raw_exec (st : State) :
  exec getBusVoltage_raw st = after_read INA219_REG_BUSVOLTAGE st.
Proof.
  unfold getBusVoltage_raw, exec, bind, ret. rewrite wireReadRegister_run. reflexivity.
Qed.

Lemma getShuntVoltage_raw_exec (st : State) :
  exec getShuntVoltage_raw st = after_read INA219_REG_SHUNTVOLTAGE st.
Proof.
  unfold getShuntVoltage_raw, exec, bind, ret. rewrite wireReadRegister_run. reflexivity.
Qed.

Lemma getPower_raw_exec (st : State) :
  exec getPower_raw st = after_read INA219_REG_POWER st.
Proof.
  unfold getPower_raw, exec, bind, ret. rewrite wireReadRegister_run. reflexivity.
Qed.

Lemma getCurrent_raw_exec (st : State) :
  exec getCurrent_raw st =
  after_read INA219_REG_CURRENT
    (after_write INA219_REG_CALIBRATION (ina219_calValue (this st)) st).
Proof.
  unfold getCurrent_raw, exec, bind, ret, get_this.
  rewrite wireWriteRegister_run. cbv beta iota.
  rewrite wireReadRegister_run. reflexivity.
Qed.

(** X7: [getBusVoltage_raw], [getShuntVoltage_raw] and [getPower_raw] each
    perform one register read and nothing else: no register of the sensor
    changes (in particular [getPower_raw] does not write the calibration
    value again) and the handle is as before. *)
Theorem plain_readers_never_write (st : State) :
  is_plain_read INA219_REG_BUSVOLTAGE st (exec getBusVoltage_raw st) /\
  is_plain_read INA219_REG_SHUNTVOLTAGE st (exec getShuntVoltage_raw st) /\
  is_plain_read INA219_REG_POWER st (exec getPower_raw st).
Proof.
  rewrite getBusVoltage_raw_exec, getShuntVoltage_raw_exec, getPower_raw_exec.
  split; [| split]; apply after_read_is_plain_read; reflexivity.
Qed.

(** ** The conversions to physical units *)

Lemma getShuntVoltage_mV_value (st : State) :
  eval getShuntVoltage_mV st =
  F32.mul (F32.of_int (signed_reg st INA219_REG_SHUNTVOLTAGE)) (F32.lit 1 100).
Proof. unfold getShuntVoltage_mV, getShuntVoltage_raw, signed_reg. run_driver. reflexivity. Qed.

Lemma getBusVoltage_V_value (st : State) :
  eval getBusVoltage_V st =
  F32.mul (F32.of_int (eval getBusVoltage_raw st)) (F32.lit 1 1000).
Proof. unfold getBusVoltage_V, getBusVoltage_raw. run_driver. reflexivity. Qed.

Lemma getBusVoltage_raw_bounds (st : State) : 0 <= eval getBusVoltage_raw st <= 32764.
Proof.
  rewrite getBusVoltage_raw_value.
  set (v := Int.to_uint16 (reg_value (device (Wire st)) INA219_REG_BUSVOLTAGE)).
  destruct (bus_decode_range v (IntFacts.to_uint16_range _)) as [Hr _].
  rewrite IntFacts.to_uint16_small by lia.
  rewrite IntFacts.to_int16_small by lia. exact Hr.
Qed.

Lemma shunt_mV_all_readings :
  let c := F32.lit 1 100 in
  forall_block 16 (-32768)
    (fun r => accurate_zb (F32.mul (F32.of_int r) c) r 100 1 20000) = true.
Proof. vm_compute. reflexivity. Qed.

Lemma bus_V_all_readings :
  let c := F32.lit 1 1000 in
  forall_block 15 0
    (fun r => let x := F32.mul (F32.of_int r) c in
              accurate_zb x r 1000 1 200000 && negb (F32.ltb x F32.zero)) = true.
Proof. vm_compute. reflexivity. Qed.

(** X8: for every content of the SHUNTVOLTAGE register,
    [getShuntVoltage_mV] is a number within 0.00005 mV of the signed raw
    reading times 0.01. *)
Theorem getShuntVoltage_mV_accuracy (st : State) :
  accurate (eval getShuntVoltage_mV st)
    (signed_reg st INA219_REG_SHUNTVOLTAGE # 100) (1 # 20000).
Proof.
  rewrite getShuntVoltage_mV_value.
  apply accurate_zb_spec.
  apply (forall_block_spec 16 (-32768) _ shunt_mV_all_readings).
  apply signed_reg_range.
Qed.

(** X9: for every content of the BUSVOLTAGE register, [getBusVoltage_V] is a
    number within 0.000005 V of the raw bus reading times 0.001, and it is
    never below zero. *)
Theorem getBusVoltage_V_accuracy (st : State) :
  accurate (eval getBusVoltage_V st) (eval getBusVoltage_raw st # 1000) (1 # 200000) /\
  F32.ltb (eval getBusVoltage_V st) F32.zero = false.
Proof.
  rewrite getBusVoltage_V_value.
  pose proof (getBusVoltage_raw_bounds st) as Hr.
  pose proof (forall_block_spec 15 0 _ bus_V_all_readings (eval getBusVoltage_raw st)) as H.
  cbv beta zeta in H.
  assert (Hin : 0 <= eval getBusVoltage_raw st < 0 + 2 ^ Z.of_nat 15)
    by (change (2 ^ Z.of_nat 15) with 32768; lia).
  apply H in Hin. apply andb_prop in Hin as [Hacc Hsign].
  split; [apply accurate_zb_spec, Hacc |].
  apply Bool.negb_true_iff, Hsign.
Qed.

(** ** Conversions after a calibration *)

Lemma signed_reg_frame (st st' : State) (reg : Z) :
  reg_value (device (Wire st')) reg = reg_value (device (Wire st)) reg ->
  signed_reg st' reg = signed_reg st reg.
Proof. intros H. unfold signed_reg. rewrite H. reflexivity. Qed.

Lemma current_after_calibration (c : Drv unit) (st : State) lsb_mA lsb_mW cal config :
  calibrated st (exec c st) lsb_mA lsb_mW cal config ->
  eval (c ;; getCurrent_mA) st =
  F32.mul (F32.of_int (signed_reg st INA219_REG_CURRENT)) lsb_mA.
Proof.
  intros (HmA & _ & _ & _ & _ & _ & _ & Hframe).
  rewrite eval_seq, getCurrent_mA_value, HmA.
  fold (signed_reg (exec c st) INA219_REG_CURRENT).
  rewrite (signed_reg_frame st) by (apply Hframe; discriminate).
  reflexivity.
Qed.

Lemma power_after_calibration (c : Drv unit) (st : State) lsb_mA lsb_mW cal config :
  calibrated st (exec c st) lsb_mA lsb_mW cal config ->
  eval (c ;; getPower_mW) st =
  F32.mul (F32.of_int (signed_reg st INA219_REG_POWER)) lsb_mW.
Proof.
  intros (_ & HmW & _ & _ & _ & _ & _ & Hframe).
  rewrite eval_seq, getPower_mW_value, HmW.
  fold (signed_reg (exec c st) INA219_REG_POWER).
  rewrite (signed_reg_frame st) by (apply Hframe; discriminate).
  reflexivity.
Qed.

Lemma preset_current_all_readings :
  let c1 := F32.lit 1 10 in
  let c2 := F32.lit 4 100 in
  let c3 := F32.lit 5 100 in
  forall_block 16 (-32768)
    (fun r => let x := F32.of_int r in
              accurate_zb (F32.mul x c1) r 10 1 2000 &&
              accurate_zb (F32.mul x c2) (4 * r) 100 1 5000 &&
              accurate_zb (F32.mul x c3) (5 * r) 100 1 5000) = true.
Proof. vm_compute. reflexivity. Qed.

Lemma preset_power_all_readings :
  let c1 := F32.of_int 2 in
  let c2 := F32.lit 8 10 in
  let c3 := F32.of_int 1 in
  forall_block 16 (-32768)
    (fun r => let x := F32.of_int r in
              accurate_zb (F32.mul x c1) (2 * r) 1 0 1 &&
              accurate_zb (F32.mul x c2) (8 * r) 10 1 500 &&
              accurate_zb (F32.mul x c3) r 1 0 1) = true.
Proof. vm_compute. reflexivity. Qed.

Lemma uncalibrated_all_readings :
  forall_block 16 (-32768)
    (fun r => is_zero (F32.mul (F32.of_int r) (F32.of_int 0))) = true.
Proof. vm_compute. reflexivity. Qed.

Section AfterCalibration.

Context `{hdr : INA219_header}.

(** X10: after each preset and for every content of the CURRENT register,
    [getCurrent_mA] is a number close to the signed raw reading times the
    preset's current LSB: within 0.0005 mA of raw x 0.1 after 32V/2A, and
    within 0.0002 mA of raw x 0.04 after 32V/1A and of raw x 0.05 after
    16V/400mA. *)
Theorem preset_current_accuracy (st : State) :
  let raw := signed_reg st INA219_REG_CURRENT in
  accurate (eval (setCalibration_32V_2A ;; getCurrent_mA) st) (raw # 10) (1 # 2000) /\
  accurate (eval (setCalibration_32V_1A ;; getCurrent_mA) st) (4 * raw # 100) (1 # 5000) /\
  accurate (eval (setCalibration_16V_400mA ;; getCurrent_mA) st) (5 * raw # 100) (1 # 5000).
Proof.
  intros raw.
  rewrite (current_after_calibration _ st _ _ _ _ (setCalibration_32V_2A_run st)).
  rewrite (current_after_calibration _ st _ _ _ _ (setCalibration_32V_1A_run st)).
  rewrite (current_after_calibration _ st _ _ _ _ (setCalibration_16V_400mA_run st)).
  fold raw.
  pose proof (forall_block_spec 16 (-32768) _ preset_current_all_readings raw
                (signed_reg_range st _)) as H.
  cbv beta zeta in H.
  apply andb_prop in H as [H H3]. apply andb_prop in H as [H1 H2].
  split; [| split]; apply accurate_zb_spec; assumption.
Qed.

(** X11: after each preset and for every content of the POWER register,
    [getPower_mW] is a number close to the signed raw reading times the
    preset's power LSB: exactly raw x 2 after 32V/2A, within 0.002 mW of
    raw x 0.8 after 32V/1A, and exactly raw after 16V/400mA. *)
Theorem preset_power_accuracy (st : State) :
  let raw := signed_reg st INA219_REG_POWER in
  accurate (eval (setCalibration_32V_2A ;; getPower_mW) st) (2 * raw # 1) (0 # 1) /\
  accurate (eval (setCalibration_32V_1A ;; getPower_mW) st) (8 * raw # 10) (1 # 500) /\
  accurate (eval (setCalibration_16V_400mA ;; getPower_mW) st) (raw # 1) (0 # 1).
Proof.
  intros raw.
  rewrite (power_after_calibration _ st _ _ _ _ (setCalibration_32V_2A_run st)).
  rewrite (power_after_calibration _ st _ _ _ _ (setCalibration_32V_1A_run st)).
  rewrite (power_after_calibration _ st _ _ _ _ (setCalibration_16V_400mA_run st)).
  fold raw.
  pose proof (forall_block_spec 16 (-32768) _ preset_power_all_readings raw
                (signed_reg_range st _)) as H.
  cbv beta zeta in H.
  apply andb_prop in H as [H H3]. apply andb_prop in H as [H1 H2].
  split; [| split]; apply accurate_zb_spec; assumption.
Qed.

End AfterCalibration.

(** X12: a handle that was constructed and not calibrated converts every
    reading to zero: whatever the CURRENT and POWER registers hold,
    [getCurrent_mA] and [getPower_mW] return a zero. *)
Theorem uncalibrated_readings_are_zero (storage : Adafruit_INA219) (addr : Z) (w : TwoWire) :
  let st := {| this := Adafruit_INA219_ctor storage addr; Wire := w |} in
  is_zero (eval getCurrent_mA st) = true /\ is_zero (eval getPower_mW st) = true.
Proof.
  intros st. rewrite getCurrent_mA_value, getPower_mW_value.
  change (ina219_currentLsb_mA (this st)) with (F32.of_int 0).
  change (ina219_powerLsb_mW (this st)) with (F32.of_int 0).
  split; apply (forall_block_spec 16 (-32768) _ uncalibrated_all_readings);
    apply to_int16_range.
Qed.

(** ** Start-up and recalibration *)

Lemma handle_ext (h1 h2 : Adafruit_INA219) :
  ina219_i2caddr h1 = ina219_i2caddr h2 ->
  ina219_currentLsb_mA h1 = ina219_currentLsb_mA h2 ->
  ina219_powerLsb_mW h1 = ina219_powerLsb_mW h2 ->
  ina219_calValue h1 = ina219_calValue h2 ->
  h1 = h2.
Proof. destruct h1, h2. cbn. intros -> -> -> ->. reflexivity. Qed.

(** Two runs of a calibration routine that end with the same operating point
    agree on the handle and on the two registers it writes. *)
Lemma calibrated_same_outcome st1 st1' st2 st2' lsb_mA lsb_mW cal config :
  ina219_i2caddr (this st1) = ina219_i2caddr (this st2) ->
  calibrated st1 st1' lsb_mA lsb_mW cal config ->
  calibrated st2 st2' lsb_mA lsb_mW cal config ->
  this st1' = this st2' /\
  reg_value (device (Wire st1')) INA219_REG_CALIBRATION
    = reg_value (device (Wire st2')) INA219_REG_CALIBRATION /\
  config_of st1' = config_of st2'.
Proof.
  intros Haddr (A1 & B1 & C1 & D1 & _ & E1 & F1 & _) (A2 & B2 & C2 & D2 & _ & E2 & F2 & _).
  repeat apply conj.
  - apply handle_ext; congruence.
  - congruence.
  - unfold config_of. congruence.
Qed.

Section StartUp.

Context `{hdr : INA219_header}.

(** X13: [begin(addr)] retargets the handle and selects the 32V/2A preset:
    whatever address the handle was constructed with, it now holds [addr]
    (as a byte), both register writes of the preset go to that address, and
    the operating point is the preset's. *)
Theorem begin_addr_retargets (addr : Z) (st : State) :
  let st' := exec (begin_addr addr) st in
  let a := Int.to_uint8 addr in
  ina219_i2caddr (this st') = a /\
  ina219_currentLsb_mA (this st') = F32.lit 1 10 /\
  ina219_powerLsb_mW (this st') = F32.of_int 2 /\
  ina219_calValue (this st') = 4096 /\
  events (Wire st') =
    events (Wire st) ++
    [Transmit a [INA219_REG_CALIBRATION; 0x10; 0x00];
     Transmit a [INA219_REG_CONFIG; hi_byte (Int.to_uint16 preset_config_32V);
                 lo_byte (Int.to_uint16 preset_config_32V)]].
Proof.
  set (st1 := {| this := set_i2caddr (Int.to_uint8 addr) (this st); Wire := Wire st |}).
  assert (Hexec : exec (begin_addr addr) st = exec setCalibration_32V_2A st1).
  { unfold begin_addr, begin, Wire_begin, exec, bind, modify_this, ret. reflexivity. }
  cbv zeta. rewrite Hexec.
  destruct (setCalibration_32V_2A_run st1) as (HmA & HmW & Hcal & Haddr & Hev & _).
  assert (Hbus : bus_addr st1 = Int.to_uint8 addr)
    by (unfold bus_addr, st1; cbn [this set_i2caddr ina219_i2caddr]; apply to_uint8_idem).
  rewrite Hbus in Hev.
  repeat apply conj; assumption.
Qed.

(** X14: what a preset leaves behind does not depend on what was cached
    before: from two states whose handles have the same address, the same
    preset ends with the same handle (stale scale factors and a stale
    calibration value are gone) and the same CALIBRATION and CONFIG
    registers. *)
Theorem presets_forget_previous_state (st1 st2 : State) :
  ina219_i2caddr (this st1) = ina219_i2caddr (this st2) ->
  let same (c : Drv unit) :=
    this (exec c st1) = this (exec c st2) /\
    reg_value (device (Wire (exec c st1))) INA219_REG_CALIBRATION
      = reg_value (device (Wire (exec c st2))) INA219_REG_CALIBRATION /\
    config_of (exec c st1) = config_of (exec c st2) in
  same setCalibration_32V_2A /\ same setCalibration_32V_1A /\ same setCalibration_16V_400mA.
Proof.
  intros Haddr. cbv zeta. split; [| split].
  - exact (calibrated_same_outcome _ _ _ _ _ _ _ _ Haddr
             (setCalibration_32V_2A_run st1) (setCalibration_32V_2A_run st2)).
  - exact (calibrated_same_outcome _ _ _ _ _ _ _ _ Haddr
             (setCalibration_32V_1A_run st1) (setCalibration_32V_1A_run st2)).
  - exact (calibrated_same_outcome _ _ _ _ _ _ _ _ Haddr
             (setCalibration_16V_400mA_run st1) (setCalibration_16V_400mA_run st2)).
Qed.

End StartUp.

Lemma presets_forget_previous_state_witness :
  ina219_i2caddr (this example_state_stale) = ina219_i2caddr (this example_state) /\
  this (exec (@setCalibration_32V_1A datasheet_header) example_state_stale)
    = this (exec (@setCalibration_32V_1A datasheet_header) example_state).
Proof.
  split; [reflexivity |].
  destruct (@presets_forget_previous_state datasheet_header
              example_state_stale example_state eq_refl) as (_ & (H & _) & _).
  exact H.
Defined.

(** ** Composing the sampling-mode toggles *)

Lemma field_update_testbit (mask field c n : Z) :
  0 <= n ->
  Z.testbit (field_update mask field c) n =
  (n <? 16) && ((Z.testbit c n && negb (Z.testbit mask n)) || Z.testbit field n).
Proof.
  intros Hn. unfold field_update.
  destruct (Z.ltb_spec n 16) as [Hlt | Hge].
  - rewrite to_uint16_testbit by lia.
    rewrite Z.lor_spec, Z.land_spec, Z.lnot_spec by lia.
    rewrite to_uint16_testbit by lia. reflexivity.
  - rewrite to_uint16_testbit_high by lia. reflexivity.
Qed.

Lemma in_mask_bit (mask field n : Z) :
  Z.land field (Z.lnot mask) = 0 -> 0 <= n ->
  Z.testbit field n && negb (Z.testbit mask n) = false.
Proof.
  intros Hin Hn.
  rewrite <- Z.lnot_spec, <- Z.land_spec by lia. rewrite Hin. apply Z.bits_0.
Qed.

Lemma disjoint_bit (m1 m2 n : Z) :
  Z.land m1 m2 = 0 -> Z.testbit m1 n && Z.testbit m2 n = false.
Proof. intros Hd. rewrite <- Z.land_spec, Hd. apply Z.bits_0. Qed.


(** Updates of two disjoint fields can be done in either order. *)
Lemma field_update_comm (m1 f1 m2 f2 c : Z) :
  Z.land f1 (Z.lnot m1) = 0 -> Z.land f2 (Z.lnot m2) = 0 -> Z.land m1 m2 = 0 ->
  field_update m2 f2 (field_update m1 f1 c) = field_update m1 f1 (field_update m2 f2 c).
Proof.
  intros Hin1 Hin2 Hd. apply Z.bits_inj'. intros n Hn.
  rewrite !field_update_testbit by exact Hn.
  pose proof (in_mask_bit m1 f1 n Hin1 Hn) as H1.
  pose proof (in_mask_bit m2 f2 n Hin2 Hn) as H2.
  pose proof (disjoint_bit m1 m2 n Hd) as H3.
  destruct (n <? 16), (Z.testbit c n), (Z.testbit m1 n), (Z.testbit m2 n),
    (Z.testbit f1 n), (Z.testbit f2 n); cbn in *; congruence.
Qed.

Lemma field_update_range (mask field c : Z) : 0 <= field_update mask field c < 65536.
Proof. apply IntFacts.to_uint16_range. Qed.

Lemma reg_value_after_write_same (reg value : Z) (st : State) :
  Int.to_uint8 reg = reg ->
  reg_value (device (Wire (after_write reg value st))) reg = Int.to_uint16 value.
Proof. intros H. rewrite <- H at 2. apply reg_value_after_write. Qed.

(** A read of CONFIG followed by the write-back of [new]. *)
Lemma config_rewrite_instant (new : Z) (st : State) :
  0 <= new < 65536 ->
  is_config_rewrite []
    st (after_write INA219_REG_CONFIG new (after_read INA219_REG_CONFIG st)).
Proof.
  intros Hnew. unfold is_config_rewrite, config_of.
  rewrite reg_value_after_write_same by reflexivity.
  autorewrite with drv. rewrite (IntFacts.to_uint16_small new) by exact Hnew.
  repeat apply conj.
  - rewrite <- !app_assoc. reflexivity.
  - intros r Hr. rewrite reg_value_after_write_ne by (intros <-; apply Hr; reflexivity).
    apply reg_value_after_read.
  - reflexivity.
Qed.

Lemma config_rewrite_average (new : Z) (st : State) :
  0 <= new < 65536 ->
  is_config_rewrite [Delay 69]
    st (after_delay 69
          (after_write INA219_REG_CONFIG new (after_read INA219_REG_CONFIG st))).
Proof.
  intros Hnew. unfold is_config_rewrite, config_of.
  rewrite device_after_delay.
  rewrite reg_value_after_write_same by reflexivity.
  autorewrite with drv. rewrite (IntFacts.to_uint16_small new) by exact Hnew.
  repeat apply conj.
  - rewrite <- !app_assoc. reflexivity.
  - intros r Hr. rewrite reg_value_after_write_ne by (intros <-; apply Hr; reflexivity).
    apply reg_value_after_read.
  - reflexivity.
Qed.


(** Two operations that update disjoint fields of CONFIG, in both orders. *)
Lemma updates_commute (t1 t2 : Drv unit) (m1 f1 m2 f2 : Z) :
  Z.land f1 (Z.lnot m1) = 0 -> Z.land f2 (Z.lnot m2) = 0 -> Z.land m1 m2 = 0 ->
  (forall s, config_of (exec t1 s) = field_update m1 f1 (config_of s)) ->
  (forall s, config_of (exec t2 s) = field_update m2 f2 (config_of s)) ->
  forall st, config_of (exec t2 (exec t1 st)) = config_of (exec t1 (exec t2 st)).
Proof.
  intros Hin1 Hin2 Hd H1 H2 st. rewrite !H2, !H1, H2.
  apply field_update_comm; assumption.
Qed.

Section ToggleComposition.

Context `{hdr : INA219_header}.

Lemma setAmpInstant_exec (st : State) :
  exec setAmpInstant st =
  after_write INA219_REG_CONFIG
    (field_update INA219_CONFIG_SADCRES_MASK INA219_CONFIG_SADCRES_12BIT_1S_532US
       (config_of st))
    (after_read INA219_REG_CONFIG st).
Proof.
  unfold setAmpInstant, exec, bind. rewrite wireReadRegister_run. cbv beta iota zeta.
  rewrite wireWriteRegister_run. reflexivity.
Qed.

Lemma setAmpAverage_exec (st : State) :
  exec setAmpAverage st =
  after_delay 69
    (after_write INA219_REG_CONFIG
       (field_update INA219_CONFIG_SADCRES_MASK INA219_CONFIG_SADCRES_12BIT_128S_69MS
          (config_of st))
       (after_read INA219_REG_CONFIG st)).
Proof.
  unfold setAmpAverage, exec, bind. rewrite wireReadRegister_run. cbv beta iota zeta.
  rewrite wireWriteRegister_run. cbv beta iota. rewrite delay_run. reflexivity.
Qed.

Lemma setVoltInstant_exec (st : State) :
  exec setVoltInstant st =
  after_write INA219_REG_CONFIG
    (field_update INA219_CONFIG_BADCRES_MASK INA219_CONFIG_BADCRES_12BIT (config_of st))
    (after_read INA219_REG_CONFIG st).
Proof.
  unfold setVoltInstant, exec, bind. rewrite wireReadRegister_run. cbv beta iota zeta.
  rewrite wireWriteRegister_run. reflexivity.
Qed.

Lemma setVoltAverage_exec (st : State) :
  exec setVoltAverage st =
  after_delay 69
    (after_write INA219_REG_CONFIG
       (field_update INA219_CONFIG_BADCRES_MASK INA219_CONFIG_BADCRES_12BIT_128S_69MS
          (config_of st))
       (after_read INA219_REG_CONFIG st)).
Proof.
  unfold setVoltAverage, exec, bind. rewrite wireReadRegister_run. cbv beta iota zeta.
  rewrite wireWriteRegister_run. cbv beta iota. rewrite delay_run. reflexivity.
Qed.

(** X15: each toggle puts its field value into CONFIG: on every bit of the
    SADC mask the register agrees with the single-sample value after
    [setAmpInstant] and with the 128-sample value after [setAmpAverage]; on
    every bit of the BADC mask it agrees with the 12-bit value after
    [setVoltInstant] and with the 128-sample value after [setVoltAverage]. *)
Theorem toggles_set_their_field (st : State) (n : Z) :
  0 <= n < 16 ->
  (Z.testbit INA219_CONFIG_SADCRES_MASK n = true ->
     Z.testbit (config_of (exec setAmpInstant st)) n
       = Z.testbit INA219_CONFIG_SADCRES_12BIT_1S_532US n /\
     Z.testbit (config_of (exec setAmpAverage st)) n
       = Z.testbit INA219_CONFIG_SADCRES_12BIT_128S_69MS n) /\
  (Z.testbit INA219_CONFIG_BADCRES_MASK n = true ->
     Z.testbit (config_of (exec setVoltInstant st)) n
       = Z.testbit INA219_CONFIG_BADCRES_12BIT n /\
     Z.testbit (config_of (exec setVoltAverage st)) n
       = Z.testbit INA219_CONFIG_BADCRES_12BIT_128S_69MS n).
Proof.
  intros Hn.
  rewrite setAmpInstant_config, setAmpAverage_config,
    setVoltInstant_config, setVoltAverage_config.
  split; intros Hm; split; apply field_update_inside; assumption.
Qed.


(** X17: the shunt and the bus toggles commute: with a header whose field
    values lie inside their masks and whose two masks are disjoint, CONFIG
    is the same whichever of a shunt toggle and a bus toggle is called
    first. *)
Theorem shunt_and_bus_toggles_commute (st : State) :
  header_fields_ok ->
  config_of (exec setVoltAverage (exec setAmpAverage st))
    = config_of (exec setAmpAverage (exec setVoltAverage st)) /\
  config_of (exec setVoltInstant (exec setAmpAverage st))
    = config_of (exec setAmpAverage (exec setVoltInstant st)) /\
  config_of (exec setVoltAverage (exec setAmpInstant st))
    = config_of (exec setAmpInstant (exec setVoltAverage st)) /\
  config_of (exec setVoltInstant (exec setAmpInstant st))
    = config_of (exec setAmpInstant (exec setVoltInstant st)).
Proof.
  intros [H1 H2 H3 H4 Hd].
  repeat apply conj.
  - exact (updates_commute _ _ _ _ _ _ H2 H4 Hd
             setAmpAverage_config setVoltAverage_config st).
  - exact (updates_commute _ _ _ _ _ _ H2 H3 Hd
             setAmpAverage_config setVoltInstant_config st).
  - exact (updates_commute _ _ _ _ _ _ H1 H4 Hd
             setAmpInstant_config setVoltAverage_config st).
  - exact (updates_commute _ _ _ _ _ _ H1 H3 Hd
             setAmpInstant_config setVoltInstant_config st).
Qed.

(** X18: a toggle is a read of CONFIG followed by the write-back of the new
    content, and nothing else reaches the sensor: every other register (the
    calibration among them) and the handle are as before.  The averaged
    modes then wait 69 ms; the single-sample modes do not wait. *)
Theorem toggles_rewrite_config_only (st : State) :
  is_config_rewrite [] st (exec setAmpInstant st) /\
  is_config_rewrite [Delay 69] st (exec setAmpAverage st) /\
  is_config_rewrite [] st (exec setVoltInstant st) /\
  is_config_rewrite [Delay 69] st (exec setVoltAverage st).
Proof.
  rewrite setAmpInstant_exec, setAmpAverage_exec, setVoltInstant_exec, setVoltAverage_exec.
  repeat apply conj;
    first [ apply config_rewrite_instant | apply config_rewrite_average ];
    apply field_update_range.
Qed.

End ToggleComposition.

Lemma toggles_set_their_field_witness :
  let hdr := datasheet_header in
  0 <= 5 < 16 /\
  Z.testbit INA219_CONFIG_SADCRES_MASK 5 = true /\
  Z.testbit (config_of (exec setAmpAverage example_state)) 5 = true /\
  Z.testbit INA219_CONFIG_BADCRES_MASK 8 = true /\
  Z.testbit (config_of (exec setVoltInstant example_state)) 8 = false.
Proof.
  split; [lia | split; [reflexivity |]].
  destruct (@toggles_set_their_field datasheet_header example_state 5
              ltac:(lia)) as [Hs _].
  destruct (@toggles_set_their_field datasheet_header example_state 8
              ltac:(lia)) as [_ Hb].
  split; [apply (Hs eq_refl) |].
  split; [reflexivity | apply (Hb eq_refl)].
Defined.


Lemma shunt_and_bus_toggles_commute_witness :
  @header_fields_ok datasheet_header /\
  config_of (exec (@setVoltAverage datasheet_header)
               (exec (@setAmpAverage datasheet_header) example_state))
  = config_of (exec (@setAmpAverage datasheet_header)
                 (exec (@setVoltAverage datasheet_header) example_state)).
Proof.
  split; [exact datasheet_header_fields_ok |].
  destruct (@shunt_and_bus_toggles_commute datasheet_header example_state
              datasheet_header_fields_ok) as [H _].
  exact H.
Defined.

(** ** The generic calibration, whenever it returns *)

Lemma to_uint16_lor (a b : Z) :
  Int.to_uint16 (Z.lor a b) = Z.lor (Int.to_uint16 a) (Int.to_uint16 b).
Proof.
  unfold Int.to_uint16. rewrite <- !Z.land_ones by lia. apply Z.land_lor_distr_l.
Qed.

Section GenericOutcome.

Context `{hdr : INA219_header} `{tgt : Target}.

(** A call that returns has left the rounding loop with some current LSB,
    and is calibrated from it. *)
Lemma setCalibration_Def_outcome (fuel : nat)
    (r_shunt v_shunt_max v_bus_max i_max_expected : float) (st st' : State) :
  setCalibration_Def fuel r_shunt v_shunt_max v_bus_max i_max_expected st = Some (tt, st') ->
  exists current_lsb,
    round_lsb fuel (F32.div i_max_expected (F32.of_int 32767)) 0 = Some current_lsb /\
    calibrated st st'
      (F32.mul current_lsb (F32.of_int 1000))
      (F32.mul (F32.mul current_lsb (F32.of_int 20)) (F32.of_int 1000))
      (generic_cal current_lsb r_shunt)
      (generic_config v_shunt_max v_bus_max).
Proof.
  unfold setCalibration_Def.
  destruct (round_lsb fuel (F32.div i_max_expected (F32.of_int 32767)) 0)
    as [current_lsb |]; [| discriminate].
  rewrite setCalibration_Def_finish_unit. intros Heq.
  exists current_lsb. split; [reflexivity |].
  injection Heq as <-. apply setCalibration_Def_finish_run.
Qed.

Lemma generic_config_32V (v_shunt_max v_bus_max : float) :
  F32.leb v_shunt_max (F32.lit 160 1000) = false ->
  F32.ltb (F32.of_int 16) v_bus_max = true ->
  Int.to_uint16 (generic_config v_shunt_max v_bus_max) = Int.to_uint16 preset_config_32V.
Proof.
  intros Hv Hb. unfold generic_config, preset_config_32V.
  rewrite (select_gain_8 _ Hv), Hb. cbn [gain_bits].
  rewrite !to_uint16_lor, !to_uint16_idem. reflexivity.
Qed.

Lemma generic_config_16V (v_shunt_max v_bus_max : float) :
  F32.leb v_shunt_max (F32.lit 4 100) = true ->
  F32.ltb (F32.of_int 16) v_bus_max = false ->
  Int.to_uint16 (generic_config v_shunt_max v_bus_max) = Int.to_uint16 preset_config_16V.
Proof.
  intros Hv Hb. unfold generic_config, preset_config_16V.
  rewrite (select_gain_1 _ Hv), Hb. cbn [gain_bits].
  rewrite !to_uint16_lor, !to_uint16_idem. reflexivity.
Qed.

(** X19: whenever [setCalibration_Def] returns, the CONFIG register agrees
    with the presets on matching ranges: a maximum shunt voltage above 0.16
    with a maximum bus voltage above 16 gives the CONFIG of the two 32 V
    presets, and a maximum shunt voltage of at most 0.04 with a maximum bus
    voltage not above 16 gives the CONFIG of the 16V/400mA preset, whatever
    the shunt resistance and the expected current are. *)
Theorem generic_config_matches_presets (fuel : nat)
    (r_shunt v_shunt_max v_bus_max i_max_expected : float) (st st' : State) :
  setCalibration_Def fuel r_shunt v_shunt_max v_bus_max i_max_expected st = Some (tt, st') ->
  (F32.leb v_shunt_max (F32.lit 160 1000) = false ->
   F32.ltb (F32.of_int 16) v_bus_max = true ->
   config_of st' = Int.to_uint16 preset_config_32V) /\
  (F32.leb v_shunt_max (F32.lit 4 100) = true ->
   F32.ltb (F32.of_int 16) v_bus_max = false ->
   config_of st' = Int.to_uint16 preset_config_16V).
Proof.
  intros Hrun.
  destruct (setCalibration_Def_outcome _ _ _ _ _ _ _ Hrun)
    as (lsb & _ & _ & _ & _ & _ & _ & _ & Hcfg & _).
  unfold config_of. rewrite Hcfg.
  split; intros Hv Hb; [apply generic_config_32V | apply generic_config_16V]; assumption.
Qed.

(** X20: every routine that writes the calibration leaves the cache and the
    sensor in agreement: after each preset, after [setCalibration_Def]
    whenever it returns, and after [getCurrent_raw] (from any state, also one
    in which the sensor had lost its calibration), the CALIBRATION register
    holds the cached calibration value. *)
Theorem calibration_writers_synchronise (st : State) :
  cal_in_sync (exec setCalibration_32V_2A st) /\
  cal_in_sync (exec setCalibration_32V_1A st) /\
  cal_in_sync (exec setCalibration_16V_400mA st) /\
  cal_in_sync (exec getCurrent_raw st) /\
  (forall fuel r_shunt v_shunt_max v_bus_max i_max_expected st',
     setCalibration_Def fuel r_shunt v_shunt_max v_bus_max i_max_expected st
       = Some (tt, st') ->
     cal_in_sync st').
Proof.
  assert (Hsync : forall st' a b cal cfg, calibrated st st' a b cal cfg -> cal_in_sync st').
  { intros st' a b cal cfg (_ & _ & Hcal & _ & _ & Hreg & _).
    unfold cal_in_sync. rewrite Hreg, Hcal. reflexivity. }
  split; [exact (Hsync _ _ _ _ _ (setCalibration_32V_2A_run st)) |].
  split; [exact (Hsync _ _ _ _ _ (setCalibration_32V_1A_run st)) |].
  split; [exact (Hsync _ _ _ _ _ (setCalibration_16V_400mA_run st)) |].
  split.
  - unfold cal_in_sync. rewrite getCurrent_raw_exec.
    rewrite reg_value_after_read, this_after_read, this_after_write.
    apply reg_value_after_write_same. reflexivity.
  - intros fuel r vs vb i st' Hrun.
    destruct (setCalibration_Def_outcome _ _ _ _ _ _ _ Hrun) as (lsb & _ & Hcal).
    exact (Hsync _ _ _ _ _ Hcal).
Qed.

(** X21: the routines that do not write the calibration keep that
    agreement: if the CALIBRATION register holds the cached value, it still
    does after each of the three plain readers and after each of the four
    sampling-mode toggles. *)
Theorem readers_and_toggles_keep_sync (st : State) :
  cal_in_sync st ->
  cal_in_sync (exec getBusVoltage_raw st) /\
  cal_in_sync (exec getShuntVoltage_raw st) /\
  cal_in_sync (exec getPower_raw st) /\
  cal_in_sync (exec setAmpInstant st) /\
  cal_in_sync (exec setAmpAverage st) /\
  cal_in_sync (exec setVoltInstant st) /\
  cal_in_sync (exec setVoltAverage st).
Proof.
  intros Hsync. unfold cal_in_sync in *.
  rewrite getBusVoltage_raw_exec, getShuntVoltage_raw_exec, getPower_raw_exec,
    setAmpInstant_exec, setAmpAverage_exec, setVoltInstant_exec, setVoltAverage_exec.
  autorewrite with drv.
  rewrite !reg_value_after_write_ne by discriminate.
  autorewrite with drv.
  repeat apply conj; exact Hsync.
Qed.

End GenericOutcome.

Lemma generic_config_matches_presets_witness :
  let hdr := datasheet_header in
  let tgt := zero_target in
  let st' := match setCalibration_Def 6 (F32.lit 1 10) (F32.lit 32 100) (F32.of_int 32)
                     (F32.of_int 2) example_state with
             | Some (_, s) => s
             | None => example_state
             end in
  setCalibration_Def 6 (F32.lit 1 10) (F32.lit 32 100) (F32.of_int 32) (F32.of_int 2)
    example_state = Some (tt, st') /\
  F32.leb (F32.lit 32 100) (F32.lit 160 1000) = false /\
  F32.ltb (F32.of_int 16) (F32.of_int 32) = true /\
  config_of st' = Int.to_uint16 preset_config_32V.
Proof.
  intros hdr tgt st'.
  assert (Hrun : setCalibration_Def 6 (F32.lit 1 10) (F32.lit 32 100) (F32.of_int 32)
                   (F32.of_int 2) example_state = Some (tt, st'))
    by (vm_compute; reflexivity).
  split; [exact Hrun | split; [reflexivity | split; [reflexivity |]]].
  destruct (@generic_config_matches_presets hdr tgt 6 _ _ _ _ _ _ Hrun) as [H32 _].
  apply H32; reflexivity.
Defined.

Lemma readers_and_toggles_keep_sync_witness :
  let hdr := datasheet_header in
  let st := exec setCalibration_32V_2A example_state in
  cal_in_sync st /\ cal_in_sync (exec setAmpAverage st).
Proof.
  intros hdr st.
  assert (Hsync : cal_in_sync st) by (vm_compute; reflexivity).
  split; [exact Hsync |].
  destruct (@readers_and_toggles_keep_sync hdr st Hsync) as (_ & _ & _ & _ & H & _).
  exact H.
Defined.

(** ** The gain bits the generic calibration writes *)

Section GainInConfig.

Context `{hdr : INA219_header} `{tgt : Target}.

Lemma generic_config_as_config_with (v_shunt_max v_bus_max : float) :
  Int.to_uint16 (generic_config v_shunt_max v_bus_max) =
  Int.to_uint16 (config_with (bus_range_bits v_bus_max)
                   (gain_bits (select_gain v_shunt_max))).
Proof.
  unfold generic_config, config_with, bus_range_bits.
  rewrite !to_uint16_lor, !to_uint16_idem. reflexivity.
Qed.

(** Once the rounding loop has ended, the call returns with the CONFIG value
    made of the selected bus range and the selected gain. *)
Lemma setCalibration_Def_writes_selected_gain (fuel : nat)
    (r_shunt v_shunt_max v_bus_max i_max_expected : float) (st : State)
    (current_lsb : float) :
  round_lsb fuel (F32.div i_max_expected (F32.of_int 32767)) 0 = Some current_lsb ->
  writes_gain fuel r_shunt v_shunt_max v_bus_max i_max_expected st
    (gain_bits (select_gain v_shunt_max)).
Proof.
  intros Hloop. unfold writes_gain, config_written.
  exists (exec (setCalibration_Def_finish r_shunt v_shunt_max v_bus_max current_lsb) st).
  destruct (setCalibration_Def_finish_run r_shunt v_shunt_max v_bus_max current_lsb st)
    as (_ & _ & Hcal & _ & Hev & _ & Hcfg & _).
  split; [| split].
  - unfold setCalibration_Def. rewrite Hloop, setCalibration_Def_finish_unit. reflexivity.
  - unfold config_of. rewrite Hcfg. apply generic_config_as_config_with.
  - rewrite Hev, Hcal, generic_config_as_config_with. reflexivity.
Qed.

(** C7: in [setCalibration_Def] the gain bits of the CONFIG value are chosen
    from [v_shunt_max] as the smallest covering range.  Whenever the rounding
    loop ends, the call returns and the CONFIG register (and the CONFIG
    write on the bus) is the value made of the bus-range bits, the fixed ADC
    and mode bits, and: the GAIN_1_40MV bits when [v_shunt_max] is at most
    0.04; the GAIN_2_80MV bits when it is above 0.04 and at most 0.08; the
    GAIN_4_160MV bits when it is above 0.08 and at most 0.16; the
    GAIN_8_320MV bits otherwise.  The comparisons are the float comparisons
    of the code against the floats of the three constants; a value equal to
    a boundary takes the smaller range; the ranges have gain indices 1, 2,
    4, 8 and the gain index selected grows with [v_shunt_max]. *)
Theorem setCalibration_Def_selects_smallest_covering_gain (fuel : nat)
    (r_shunt v_shunt_max v_bus_max i_max_expected : float) (st : State) :
  (forall current_lsb,
     round_lsb fuel (F32.div i_max_expected (F32.of_int 32767)) 0 = Some current_lsb ->
     writes_gain fuel r_shunt v_shunt_max v_bus_max i_max_expected st
       (gain_bits (select_gain v_shunt_max)) /\
     (F32.leb v_shunt_max (F32.lit 4 100) = true ->
      writes_gain fuel r_shunt v_shunt_max v_bus_max i_max_expected st
        INA219_CONFIG_GAIN_1_40MV) /\
     (F32.ltb (F32.lit 4 100) v_shunt_max = true ->
      F32.leb v_shunt_max (F32.lit 8 100) = true ->
      writes_gain fuel r_shunt v_shunt_max v_bus_max i_max_expected st
        INA219_CONFIG_GAIN_2_80MV) /\
     (F32.ltb (F32.lit 8 100) v_shunt_max = true ->
      F32.leb v_shunt_max (F32.lit 16 100) = true ->
      writes_gain fuel r_shunt v_shunt_max v_bus_max i_max_expected st
        INA219_CONFIG_GAIN_4_160MV) /\
     (F32.leb v_shunt_max (F32.lit 16 100) = false ->
      writes_gain fuel r_shunt v_shunt_max v_bus_max i_max_expected st
        INA219_CONFIG_GAIN_8_320MV)) /\
  (forall v, F32.leb v (F32.lit 4 100) = true ->
     select_gain v = GAIN_1_40MV) /\
  (forall v, F32.ltb (F32.lit 4 100) v = true -> F32.leb v (F32.lit 8 100) = true ->
     select_gain v = GAIN_2_80MV) /\
  (forall v, F32.ltb (F32.lit 8 100) v = true -> F32.leb v (F32.lit 16 100) = true ->
     select_gain v = GAIN_4_160MV) /\
  (forall v, F32.leb v (F32.lit 16 100) = false ->
     select_gain v = GAIN_8_320MV) /\
  (select_gain (F32.lit 4 100) = GAIN_1_40MV /\
   select_gain (F32.lit 8 100) = GAIN_2_80MV /\
   select_gain (F32.lit 16 100) = GAIN_4_160MV) /\
  (forall v1 v2, F32.leb v1 v2 = true ->
     gain_index (select_gain v1) <= gain_index (select_gain v2)) /\
  (gain_index GAIN_1_40MV = 1 /\ gain_bits GAIN_1_40MV = INA219_CONFIG_GAIN_1_40MV) /\
  (gain_index GAIN_2_80MV = 2 /\ gain_bits GAIN_2_80MV = INA219_CONFIG_GAIN_2_80MV) /\
  (gain_index GAIN_4_160MV = 4 /\ gain_bits GAIN_4_160MV = INA219_CONFIG_GAIN_4_160MV) /\
  (gain_index GAIN_8_320MV = 8 /\ gain_bits GAIN_8_320MV = INA219_CONFIG_GAIN_8_320MV).
Proof.
  assert (H16 : F32.lit 16 100 = F32.lit 160 1000) by (vm_compute; reflexivity).
  rewrite H16.
  split.
  { intros current_lsb Hloop.
    pose proof (setCalibration_Def_writes_selected_gain fuel r_shunt v_shunt_max
                  v_bus_max i_max_expected st current_lsb Hloop) as Hw.
    split; [exact Hw |].
    split; [intros H1; rewrite (select_gain_1 _ H1) in Hw; exact Hw |].
    split; [intros H1 H2; rewrite (select_gain_2 _ H1 H2) in Hw; exact Hw |].
    split; [intros H1 H2; rewrite (select_gain_4 _ H1 H2) in Hw; exact Hw |].
    intros H1; rewrite (select_gain_8 _ H1) in Hw; exact Hw. }
  split; [exact select_gain_1 |].
  split; [exact select_gain_2 |].
  split; [exact select_gain_4 |].
  split; [exact select_gain_8 |].
  split; [repeat apply conj; vm_compute; reflexivity |].
  split; [exact select_gain_monotone |].
  repeat apply conj; reflexivity.
Qed.

End GainInConfig.

Lemma setCalibration_Def_selects_smallest_covering_gain_witness :
  let hdr := datasheet_header in
  let tgt := zero_target in
  let calibrate v_shunt_max :=
    writes_gain 6 (F32.lit 1 10) v_shunt_max (F32.of_int 32) (F32.of_int 2) example_state in
  round_lsb 6 (F32.div (F32.of_int 2) (F32.of_int 32767)) 0 = Some (F32.lit 7 100000) /\
  calibrate (F32.lit 3 100) INA219_CONFIG_GAIN_1_40MV /\
  calibrate (F32.lit 5 100) INA219_CONFIG_GAIN_2_80MV /\
  calibrate (F32.lit 1 10) INA219_CONFIG_GAIN_4_160MV /\
  calibrate (F32.lit 32 100) INA219_CONFIG_GAIN_8_320MV /\
  select_gain (F32.lit 3 100) = GAIN_1_40MV /\
  select_gain (F32.lit 5 100) = GAIN_2_80MV /\
  select_gain (F32.lit 1 10) = GAIN_4_160MV /\
  select_gain (F32.lit 32 100) = GAIN_8_320MV /\
  gain_index (select_gain (F32.lit 5 100)) <= gain_index (select_gain (F32.lit 1 10)).
Proof.
  intros hdr tgt calibrate.
  assert (Hloop : round_lsb 6 (F32.div (F32.of_int 2) (F32.of_int 32767)) 0
                  = Some (F32.lit 7 100000)) by (vm_compute; reflexivity).
  pose proof (fun v => @setCalibration_Def_selects_smallest_covering_gain hdr tgt 6
                         (F32.lit 1 10) v (F32.of_int 32) (F32.of_int 2) example_state)
    as Hthm.
  split; [exact Hloop |].
  split; [destruct (Hthm (F32.lit 3 100)) as (Hw & _);
          destruct (Hw _ Hloop) as (_ & H & _); apply H; reflexivity |].
  split; [destruct (Hthm (F32.lit 5 100)) as (Hw & _);
          destruct (Hw _ Hloop) as (_ & _ & H & _); apply H; reflexivity |].
  split; [destruct (Hthm (F32.lit 1 10)) as (Hw & _);
          destruct (Hw _ Hloop) as (_ & _ & _ & H & _); apply H; reflexivity |].
  split; [destruct (Hthm (F32.lit 32 100)) as (Hw & _);
          destruct (Hw _ Hloop) as (_ & _ & _ & _ & H); apply H; reflexivity |].
  destruct (Hthm (F32.lit 3 100)) as (_ & G1 & G2 & G4 & G8 & _ & Hmono & _).
  split; [apply G1; reflexivity |].
  split; [apply G2; reflexivity |].
  split; [apply G4; reflexivity |].
  split; [apply G8; reflexivity |].
  apply Hmono; reflexivity.
Defined.

(** The CONFIG values of the four ranges with the data-sheet header, for a
    32 V bus: the gain bits are bits 12 and 11. *)
Example setCalibration_Def_gain_bits_example :
  let run v_shunt_max :=
    match @setCalibration_Def datasheet_header zero_target 6
            (F32.lit 1 10) v_shunt_max (F32.of_int 32) (F32.of_int 2) example_state with
    | Some (_, st') => config_of st'
    | None => -1
    end in
  run (F32.lit 3 100) = 0x241F /\ run (F32.lit 4 100) = 0x241F /\
  run (F32.lit 5 100) = 0x2C1F /\ run (F32.lit 8 100) = 0x2C1F /\
  run (F32.lit 1 10) = 0x341F /\ run (F32.lit 16 100) = 0x341F /\
  run (F32.lit 32 100) = 0x3C1F.
Proof. vm_compute. repeat split. Qed.
